(** * Festibee dashboard: the artist form and the artist list page

    A shallow embedding of the two React components of the artist screen,
    [ArtistForm] (create/edit form with duplicate validation) and
    [ArtistsPage] (list page), and the properties of their handlers.

    A handler is embedded as the list of effects it performs, in program
    order: the React state setters it calls and the calls it makes to the
    outside world (props callbacks, the API client, [alert], [confirm],
    [console.error]).  What the handler reads (the state captured by the
    render it was created in) is an argument, and so is the outcome of every
    promise it awaits.  State setters are then applied to the state the
    component has at that moment. *)

From Stdlib Require Import ZArith NArith Lia.
From stdpp Require Import base decidable option list strings.

Open Scope Z_scope.

(** ** JavaScript strings *)

(** A JavaScript string is a sequence of UTF-16 code units. *)
Definition JsString := list N.

(** String literals of the source are written as Rocq strings (UTF-8 bytes)
    and decoded to code units. *)
Fixpoint utf16_of_utf8 (bs : list N) : JsString :=
  match bs with
  | [] => []
  | b :: rest =>
      if (b <? 128)%N then b :: utf16_of_utf8 rest
      else if (b <? 224)%N then
        match rest with
        | b1 :: rest1 => ((b - 192) * 64 + (b1 - 128))%N :: utf16_of_utf8 rest1
        | [] => [65533%N]
        end
      else if (b <? 240)%N then
        match rest with
        | b1 :: b2 :: rest2 =>
            ((b - 224) * 4096 + (b1 - 128) * 64 + (b2 - 128))%N
              :: utf16_of_utf8 rest2
        | _ => [65533%N]
        end
      else
        match rest with
        | b1 :: b2 :: b3 :: rest3 =>
            let cp := ((b - 240) * 262144 + (b1 - 128) * 4096
                       + (b2 - 128) * 64 + (b3 - 128))%N in
            (55296 + (cp - 65536) / 1024)%N
              :: (56320 + (cp - 65536) mod 1024)%N
              :: utf16_of_utf8 rest3
        | _ => [65533%N]
        end
  end.

Definition js (s : string) : JsString :=
  utf16_of_utf8 (map (λ b, N.of_nat (Byte.to_nat b)) (String.list_byte_of_string s)).

(** The double quote character, which appears inside template literals. *)
Definition dquote : JsString := [34%N].

(** [!s] on a string: only the empty string is falsy. *)
Definition str_truthy (s : JsString) : bool :=
  match s with [] => false | _ :: _ => true end.

(** Truthiness of a [string | null] value: [null] and [''] are falsy. *)
Definition opt_truthy (e : option JsString) : bool :=
  match e with None => false | Some s => str_truthy s end.

(** [a || b] on strings. *)
Definition str_or (a b : JsString) : JsString :=
  if str_truthy a then a else b.

(** ECMAScript WhiteSpace and LineTerminator code points, the characters
    [String.prototype.trim] strips. *)
Definition is_white_space (c : N) : bool :=
  ((c =? 9) || (c =? 10) || (c =? 11) || (c =? 12) || (c =? 13) || (c =? 32)
   || (c =? 160) || (c =? 5760) || ((8192 <=? c) && (c <=? 8202))
   || (c =? 8232) || (c =? 8233) || (c =? 8239) || (c =? 8287)
   || (c =? 12288) || (c =? 65279))%N.

Fixpoint trimStart (s : JsString) : JsString :=
  match s with
  | [] => []
  | c :: s' => if is_white_space c then trimStart s' else s
  end.

Definition trimEnd (s : JsString) : JsString :=
  reverse (trimStart (reverse s)).

Definition trim (s : JsString) : JsString := trimEnd (trimStart s).

(** A string has no leading or trailing white space. *)
Definition no_edge_space (s : JsString) : Prop :=
  (∀ c, head s = Some c → is_white_space c = false) ∧
  (∀ c, last s = Some c → is_white_space c = false).

(** ** The API types of [@/lib/api] used by the two components *)

Record ArtistAlias := { alias_id : Z; alias_name : JsString }.

Record Artist := {
  artist_id : Z;
  artist_name : JsString;
  artist_description : JsString;
  artist_aliases : list ArtistAlias
}.

(** [Omit<Artist, 'id'>], which is also the shape of the form data. *)
Record FormData := {
  form_name : JsString;
  form_description : JsString;
  form_aliases : list ArtistAlias
}.

(** The answer of [checkArtistDuplicate]; the two optional fields are
    [undefined] when absent. *)
Record DuplicateResult := {
  isDuplicate : bool;
  duplicateType : option JsString;
  duplicateName : option JsString
}.

(** How an awaited promise settles. *)
Inductive Outcome (A : Type) : Type :=
| Resolved (a : A)
| Rejected.
Arguments Resolved {A} a.
Arguments Rejected {A}.

(** [${v}] inside a template literal. *)
Definition interpolate (v : option JsString) : JsString :=
  match v with Some s => s | None => js "undefined" end.

(** The message both duplicate checks build from a positive answer. *)
Definition duplicateMessage (result : DuplicateResult) : JsString :=
  if bool_decide (duplicateType result = Some (js "name"))
  then js "이미 등록된 아티스트 이름입니다: " ++ dquote
         ++ interpolate (duplicateName result) ++ dquote
  else js "이미 다른 아티스트의 별명으로 등록되어 있습니다: " ++ dquote
         ++ interpolate (duplicateName result) ++ dquote.

(** ** ArtistForm *)

Module ArtistForm.

(** The component's [useState] cells. *)
Record FormState := {
  formData : FormData;
  newAlias : JsString;
  isSubmitting : bool;
  nameError : option JsString;
  isCheckingDuplicate : bool;
  aliasError : option JsString;
  isCheckingAliasDuplicate : bool
}.

(** What a handler of the form can do: call a state setter, or call out. *)
Inductive Effect :=
| SetFormData (f : FormData → FormData)
| SetNewAlias (v : JsString)
| SetIsSubmitting (b : bool)
| SetNameError (e : option JsString)
| SetIsCheckingDuplicate (b : bool)
| SetAliasError (e : option JsString)
| SetIsCheckingAliasDuplicate (b : bool)
| PreventDefault
| Alert (msg : JsString)
| ConsoleError (msg : JsString)
| OnSubmit (data : FormData)
| OnCancel
| CheckArtistDuplicate (name : JsString) (excludeId : option Z).

Definition applyEffect (e : Effect) (st : FormState) : FormState :=
  match e with
  | SetFormData f =>
      {| formData := f (formData st); newAlias := newAlias st;
         isSubmitting := isSubmitting st; nameError := nameError st;
         isCheckingDuplicate := isCheckingDuplicate st;
         aliasError := aliasError st;
         isCheckingAliasDuplicate := isCheckingAliasDuplicate st |}
  | SetNewAlias v =>
      {| formData := formData st; newAlias := v;
         isSubmitting := isSubmitting st; nameError := nameError st;
         isCheckingDuplicate := isCheckingDuplicate st;
         aliasError := aliasError st;
         isCheckingAliasDuplicate := isCheckingAliasDuplicate st |}
  | SetIsSubmitting b =>
      {| formData := formData st; newAlias := newAlias st;
         isSubmitting := b; nameError := nameError st;
         isCheckingDuplicate := isCheckingDuplicate st;
         aliasError := aliasError st;
         isCheckingAliasDuplicate := isCheckingAliasDuplicate st |}
  | SetNameError e =>
      {| formData := formData st; newAlias := newAlias st;
         isSubmitting := isSubmitting st; nameError := e;
         isCheckingDuplicate := isCheckingDuplicate st;
         aliasError := aliasError st;
         isCheckingAliasDuplicate := isCheckingAliasDuplicate st |}
  | SetIsCheckingDuplicate b =>
      {| formData := formData st; newAlias := newAlias st;
         isSubmitting := isSubmitting st; nameError := nameError st;
         isCheckingDuplicate := b;
         aliasError := aliasError st;
         isCheckingAliasDuplicate := isCheckingAliasDuplicate st |}
  | SetAliasError e =>
      {| formData := formData st; newAlias := newAlias st;
         isSubmitting := isSubmitting st; nameError := nameError st;
         isCheckingDuplicate := isCheckingDuplicate st;
         aliasError := e;
         isCheckingAliasDuplicate := isCheckingAliasDuplicate st |}
  | SetIsCheckingAliasDuplicate b =>
      {| formData := formData st; newAlias := newAlias st;
         isSubmitting := isSubmitting st; nameError := nameError st;
         isCheckingDuplicate := isCheckingDuplicate st;
         aliasError := aliasError st;
         isCheckingAliasDuplicate := b |}
  | PreventDefault | Alert _ | ConsoleError _ | OnSubmit _ | OnCancel
  | CheckArtistDuplicate _ _ => st
  end.

(** The state after a handler's effects, applied in order. *)
Definition apply (effs : list Effect) (st : FormState) : FormState :=
  foldl (λ s e, applyEffect e s) st effs.

Definition is_OnSubmit (e : Effect) : bool :=
  match e with OnSubmit _ => true | _ => false end.

Definition is_OnCancel (e : Effect) : bool :=
  match e with OnCancel => true | _ => false end.

Definition is_CheckArtistDuplicate (e : Effect) : bool :=
  match e with CheckArtistDuplicate _ _ => true | _ => false end.

(** A value of [nameError] that is [null] or a non-empty message. *)
Definition nameError_ok (e : option JsString) : Prop :=
  e = None ∨ opt_truthy e = true.

(** An effect that, if it writes [nameError], writes such a value. *)
Definition writes_nameError_ok (e : Effect) : Prop :=
  match e with SetNameError v => nameError_ok v | _ => True end.

(** An alias whose name is not empty and has no white space at either end. *)
Definition alias_name_ok (a : ArtistAlias) : Prop :=
  str_truthy (alias_name a) = true ∧ no_edge_space (alias_name a).

(** An effect that, if it writes [formData], keeps all alias names such. *)
Definition keeps_alias_names (e : Effect) : Prop :=
  match e with
  | SetFormData f =>
      ∀ fd, Forall alias_name_ok (form_aliases fd) →
            Forall alias_name_ok (form_aliases (f fd))
  | _ => True
  end.

(** Whether [handleAddAlias], created in state [st] and given the remote
    answer [o], reaches its [setFormData] call. *)
Definition addsAlias (st : FormState) (o : Outcome DuplicateResult) : bool :=
  str_truthy (trim (newAlias st))
  && negb (existsb (λ alias, bool_decide (alias_name alias = trim (newAlias st)))
             (form_aliases (formData st)))
  && match o with
     | Resolved result => negb (isDuplicate result)
     | Rejected => false
     end.

(** The calls a handler of the form awaits. *)
Definition is_await (e : Effect) : bool :=
  is_OnSubmit e || is_CheckArtistDuplicate e.

(** The part of a handler's effects that runs synchronously, up to and
    including the first awaited call, and the part that runs when the
    awaited promise has settled. *)
Fixpoint untilAwait (effs : list Effect) : list Effect :=
  match effs with
  | [] => []
  | e :: rest => if is_await e then [e] else e :: untilAwait rest
  end.

Fixpoint afterAwait (effs : list Effect) : list Effect :=
  match effs with
  | [] => []
  | e :: rest => if is_await e then rest else afterAwait rest
  end.

(** The busy flags of the form. *)
Definition busy (st : FormState) : bool :=
  isSubmitting st || isCheckingDuplicate st || isCheckingAliasDuplicate st.

Section Component.

(** The [initialData] prop: the artist being edited, absent in create mode. *)
Variable initialData : option Artist.

(** [initialData?.id] *)
Definition initialId : option Z := artist_id <$> initialData.

(** The initial values given to [useState]. *)
Definition initialState : FormState :=
  {| formData :=
       {| form_name :=
            str_or (from_option artist_name [] initialData) (js "");
          form_description :=
            str_or (from_option artist_description [] initialData) (js "");
          form_aliases := from_option artist_aliases [] initialData |};
     newAlias := js "";
     isSubmitting := false;
     nameError := None;
     isCheckingDuplicate := false;
     aliasError := None;
     isCheckingAliasDuplicate := false |}.

(** The body of [useEffect(..., [initialData])]. *)
Definition initialDataEffect : list Effect :=
  [ match initialData with
    | Some a =>
        SetFormData (λ _, {| form_name := artist_name a;
                             form_description := artist_description a;
                             form_aliases := artist_aliases a |})
    | None =>
        SetFormData (λ _, {| form_name := js "";
                             form_description := js "";
                             form_aliases := [] |})
    end;
    SetNewAlias (js "");
    SetNameError None;
    SetAliasError None ].

(** The form as first shown: initial state, then the effect above. *)
Definition mount : FormState := apply initialDataEffect initialState.

Definition checkNameDuplicate (name : JsString)
    (o : Outcome DuplicateResult) : list Effect :=
  if negb (str_truthy (trim name)) then [SetNameError None]
  else
    [SetIsCheckingDuplicate true; CheckArtistDuplicate name initialId]
    ++ match o with
       | Resolved result =>
           if isDuplicate result
           then [SetNameError (Some (duplicateMessage result))]
           else [SetNameError None]
       | Rejected =>
           [ConsoleError (js "Error checking duplicate:");
            SetNameError (Some (js "중복 확인 중 오류가 발생했습니다."))]
       end
    ++ [SetIsCheckingDuplicate false].

(** The callback of the 500 ms timer set by [useEffect(..., [formData.name])],
    when it fires. *)
Definition nameDebounce (st : FormState)
    (o : Outcome DuplicateResult) : list Effect :=
  if str_truthy (trim (form_name (formData st)))
  then checkNameDuplicate (form_name (formData st)) o
  else [SetNameError None].

Definition handleSubmit (st : FormState) (o : Outcome unit) : list Effect :=
  PreventDefault ::
  if opt_truthy (nameError st)
  then [Alert (js "중복된 아티스트 이름이 있습니다. 다른 이름을 사용해주세요.")]
  else
    [SetIsSubmitting true; OnSubmit (formData st)]
    ++ match o with
       | Resolved _ => [OnCancel]
       | Rejected => [ConsoleError (js "Error submitting form:")]
       end
    ++ [SetIsSubmitting false].

(** [now] is the value of [Date.now()] when the alias object is built. *)
Definition handleAddAlias (st : FormState) (now : Z)
    (o : Outcome DuplicateResult) : list Effect :=
  if negb (str_truthy (trim (newAlias st))) then []
  else if existsb (λ alias, bool_decide (alias_name alias = trim (newAlias st)))
            (form_aliases (formData st))
  then [SetAliasError (Some (js "이미 추가된 별명입니다."))]
  else
    [SetIsCheckingAliasDuplicate true;
     CheckArtistDuplicate (trim (newAlias st)) initialId]
    ++ match o with
       | Resolved result =>
           if isDuplicate result
           then [SetAliasError (Some (duplicateMessage result))]
           else
             let newAliasObj :=
               {| alias_id := now; alias_name := trim (newAlias st) |} in
             [SetFormData (λ prev,
                {| form_name := form_name prev;
                   form_description := form_description prev;
                   form_aliases := form_aliases prev ++ [newAliasObj] |});
              SetNewAlias (js "");
              SetAliasError None]
       | Rejected =>
           [ConsoleError (js "Error checking alias duplicate:");
            SetAliasError (Some (js "중복 확인 중 오류가 발생했습니다."))]
       end
    ++ [SetIsCheckingAliasDuplicate false].

Definition handleRemoveAlias (aliasId : Z) : list Effect :=
  [SetFormData (λ prev,
     {| form_name := form_name prev;
        form_description := form_description prev;
        form_aliases :=
          filter (λ alias, alias_id alias ≠ aliasId) (form_aliases prev) |})].

(** The [onChange] handlers of the three inputs. *)
Definition nameChange (v : JsString) : list Effect :=
  [SetFormData (λ prev,
     {| form_name := v;
        form_description := form_description prev;
        form_aliases := form_aliases prev |})].

Definition descriptionChange (v : JsString) : list Effect :=
  [SetFormData (λ prev,
     {| form_name := form_name prev;
        form_description := v;
        form_aliases := form_aliases prev |})].

Definition newAliasChange (st : FormState) (v : JsString) : list Effect :=
  SetNewAlias v ::
  if opt_truthy (aliasError st) then [SetAliasError None] else [].

(** The [disabled] attribute of the submit button. *)
Definition submitDisabled (st : FormState) : bool :=
  isSubmitting st
  || negb (str_truthy (form_name (formData st)))
  || negb (str_truthy (form_description (formData st)))
  || opt_truthy (nameError st)
  || isCheckingDuplicate st.

(** The [disabled] attribute of the add-alias button. *)
Definition addAliasDisabled (st : FormState) : bool :=
  negb (str_truthy (trim (newAlias st))) || isCheckingAliasDuplicate st.

(** Everything that can happen to a mounted form. *)
Inductive Event :=
| InitialDataEffect
| NameChange (v : JsString)
| DescriptionChange (v : JsString)
| NewAliasChange (v : JsString)
| NameDebounce (o : Outcome DuplicateResult)
| Submit (o : Outcome unit)
| AddAlias (now : Z) (o : Outcome DuplicateResult)
| RemoveAlias (aliasId : Z).

(** The effects of an event whose handler was created by the render of
    state [st]. *)
Definition handle (st : FormState) (ev : Event) : list Effect :=
  match ev with
  | InitialDataEffect => initialDataEffect
  | NameChange v => nameChange v
  | DescriptionChange v => descriptionChange v
  | NewAliasChange v => newAliasChange st v
  | NameDebounce o => nameDebounce st o
  | Submit o => handleSubmit st o
  | AddAlias now o => handleAddAlias st now o
  | RemoveAlias aliasId => handleRemoveAlias aliasId
  end.

(** One event handled to completion on the current state. *)
Definition step (st : FormState) (ev : Event) : FormState :=
  apply (handle st ev) st.

(** A sequence of events, each handled to completion before the next. *)
Definition run (evs : list Event) (st : FormState) : FormState :=
  foldl step st evs.

End Component.

(** The states the form can be in while its [initialData] prop takes values
    in [props] (the page keeps the form mounted and changes the prop).
    Handlers are asynchronous: between two of its effects a handler may be
    suspended on an [await], the component re-renders, and other handlers
    run.  So a reachable state is the result of applying, to a reachable
    state, any one effect of a handler created by the render of any
    reachable state. *)
Inductive reachable (props : option Artist → Prop) : FormState → Prop :=
| reachable_initial initialData :
    props initialData → reachable props (initialState initialData)
| reachable_effect initialData st snap ev e :
    props initialData →
    reachable props st → reachable props snap →
    e ∈ handle initialData snap ev →
    reachable props (applyEffect e st).

(** The prop is unconstrained. *)
Definition anyProps (initialData : option Artist) : Prop := True.

(** The prop stays absent: the form is only used to create artists. *)
Definition createMode (initialData : option Artist) : Prop :=
  initialData = None.

End ArtistForm.

(** ** ArtistsPage *)

Module ArtistsPage.

Record PageState := {
  artists : list Artist;
  isLoading : bool;
  error : option JsString;
  isFormOpen : bool;
  editingArtist : option Artist;
  selectedArtist : option Artist
}.

(** [console.error] is recorded with its label, when it is given one. *)
Inductive Effect :=
| SetArtists (v : list Artist)
| SetIsLoading (b : bool)
| SetError (e : option JsString)
| SetIsFormOpen (b : bool)
| SetEditingArtist (a : option Artist)
| SetSelectedArtist (a : option Artist)
| Confirm (msg : JsString)
| ConsoleError (label : option JsString)
| FetchArtists
| DeleteArtist (id : Z)
| CreateArtist (data : FormData)
| UpdateArtist (id : Z) (data : FormData).

Definition applyEffect (e : Effect) (st : PageState) : PageState :=
  match e with
  | SetArtists v =>
      {| artists := v; isLoading := isLoading st; error := error st;
         isFormOpen := isFormOpen st; editingArtist := editingArtist st;
         selectedArtist := selectedArtist st |}
  | SetIsLoading b =>
      {| artists := artists st; isLoading := b; error := error st;
         isFormOpen := isFormOpen st; editingArtist := editingArtist st;
         selectedArtist := selectedArtist st |}
  | SetError e =>
      {| artists := artists st; isLoading := isLoading st; error := e;
         isFormOpen := isFormOpen st; editingArtist := editingArtist st;
         selectedArtist := selectedArtist st |}
  | SetIsFormOpen b =>
      {| artists := artists st; isLoading := isLoading st; error := error st;
         isFormOpen := b; editingArtist := editingArtist st;
         selectedArtist := selectedArtist st |}
  | SetEditingArtist a =>
      {| artists := artists st; isLoading := isLoading st; error := error st;
         isFormOpen := isFormOpen st; editingArtist := a;
         selectedArtist := selectedArtist st |}
  | SetSelectedArtist a =>
      {| artists := artists st; isLoading := isLoading st; error := error st;
         isFormOpen := isFormOpen st; editingArtist := editingArtist st;
         selectedArtist := a |}
  | Confirm _ | ConsoleError _ | FetchArtists | DeleteArtist _
  | CreateArtist _ | UpdateArtist _ _ => st
  end.

Definition apply (effs : list Effect) (st : PageState) : PageState :=
  foldl (λ s e, applyEffect e s) st effs.

Definition is_FetchArtists (e : Effect) : bool :=
  match e with FetchArtists => true | _ => false end.

Definition is_DeleteArtist (e : Effect) : bool :=
  match e with DeleteArtist _ => true | _ => false end.

(** A call to the API client, of any kind. *)
Definition is_apiCall (e : Effect) : bool :=
  match e with
  | FetchArtists | DeleteArtist _ | CreateArtist _ | UpdateArtist _ _ => true
  | _ => false
  end.

(** An effect of [handleCloseForm]: a setter that closes the form. *)
Definition is_closeForm (e : Effect) : bool :=
  match e with
  | SetIsFormOpen false | SetEditingArtist None => true
  | _ => false
  end.

(** The initial values given to [useState]. *)
Definition initialState : PageState :=
  {| artists := []; isLoading := true; error := None;
     isFormOpen := false; editingArtist := None; selectedArtist := None |}.

Definition loadArtists (o : Outcome (list Artist)) : list Effect :=
  FetchArtists ::
  match o with
  | Resolved data => [SetArtists data; SetError None]
  | Rejected =>
      [SetError (Some (js "Failed to load artists"));
       ConsoleError None]
  end
  ++ [SetIsLoading false].

(** The body of [useEffect(..., [])], run once when the page mounts. *)
Definition mountEffect (o : Outcome (list Artist)) : list Effect :=
  loadArtists o.

(** [confirmed] is the answer of [window.confirm]; [odel] and [ofetch] are
    the outcomes of the delete request and of the refetch. *)
Definition handleDelete (id : Z) (confirmed : bool) (odel : Outcome unit)
    (ofetch : Outcome (list Artist)) : list Effect :=
  Confirm (js "정말로 이 아티스트를 삭제하시겠습니까?") ::
  if confirmed then
    DeleteArtist id ::
    match odel with
    | Resolved _ => loadArtists ofetch
    | Rejected => [ConsoleError (Some (js "Error deleting artist:"))]
    end
  else [].

Definition handleEdit (artist : Artist) : list Effect :=
  [SetEditingArtist (Some artist); SetIsFormOpen true].

Definition handleView (artist : Artist) : list Effect :=
  [SetSelectedArtist (Some artist)].

Definition handleCloseForm : list Effect :=
  [SetIsFormOpen false; SetEditingArtist None].

Definition handleCloseModal : list Effect :=
  [SetSelectedArtist None].

(** [osave] is the outcome of the create or update request, [ofetch] that
    of the refetch. *)
Definition handleSubmit (st : PageState) (data : FormData)
    (osave : Outcome unit) (ofetch : Outcome (list Artist)) : list Effect :=
  match editingArtist st with
  | Some a => UpdateArtist (artist_id a) data
  | None => CreateArtist data
  end ::
  match osave with
  | Resolved _ => loadArtists ofetch ++ handleCloseForm
  | Rejected => [ConsoleError (Some (js "Error saving artist:"))]
  end.

(** How the promise returned by [handleSubmit] settles: the [try] block
    catches every rejection (and [loadArtists] catches its own), so the
    promise resolves whatever the API client answered. *)
Definition handleSubmit_settles (osave : Outcome unit)
    (ofetch : Outcome (list Artist)) : Outcome unit :=
  Resolved tt.

(** What the page renders. *)
Record Row := {
  row_key : Z;
  cell_id : Z;
  cell_name : JsString;
  cell_description : JsString;
  cell_aliases : list (Z * JsString)
}.

Record FormProps := {
  prop_isOpen : bool;
  prop_initialData : option Artist
}.

Inductive View :=
| Spinner
| ErrorBox (msg : JsString)
| Table (rows : list Row) (modal : option Artist) (form : FormProps).

Definition row (artist : Artist) : Row :=
  {| row_key := artist_id artist;
     cell_id := artist_id artist;
     cell_name := artist_name artist;
     cell_description := artist_description artist;
     cell_aliases :=
       map (λ alias, (alias_id alias, alias_name alias))
           (artist_aliases artist) |}.

Definition render (st : PageState) : View :=
  if isLoading st then Spinner
  else match error st with
       | Some msg => if str_truthy msg then ErrorBox msg
                     else Table (map row (artists st)) (selectedArtist st)
                            {| prop_isOpen := isFormOpen st;
                               prop_initialData := editingArtist st |}
       | None => Table (map row (artists st)) (selectedArtist st)
                   {| prop_isOpen := isFormOpen st;
                      prop_initialData := editingArtist st |}
       end.

(** The [onClick] of the add button above the table. *)
Definition openCreate : list Effect := [SetIsFormOpen true].

(** The [onClick] of the edit button of the detail modal, which is only
    rendered while an artist is selected. *)
Definition modalEdit (st : PageState) : list Effect :=
  match selectedArtist st with
  | Some artist => handleCloseModal ++ handleEdit artist
  | None => []
  end.

(** Everything that can happen to the page. *)
Inductive Event :=
| MountEffect (ofetch : Outcome (list Artist))
| ClickDelete (id : Z) (confirmed : bool) (odel : Outcome unit)
    (ofetch : Outcome (list Artist))
| ClickEdit (artist : Artist)
| ClickView (artist : Artist)
| CloseForm
| CloseModal
| ClickAdd
| ClickModalEdit
| SubmitForm (data : FormData) (osave : Outcome unit)
    (ofetch : Outcome (list Artist)).

Definition handle (st : PageState) (ev : Event) : list Effect :=
  match ev with
  | MountEffect ofetch => mountEffect ofetch
  | ClickDelete id confirmed odel ofetch =>
      handleDelete id confirmed odel ofetch
  | ClickEdit artist => handleEdit artist
  | ClickView artist => handleView artist
  | CloseForm => handleCloseForm
  | CloseModal => handleCloseModal
  | ClickAdd => openCreate
  | ClickModalEdit => modalEdit st
  | SubmitForm data osave ofetch => handleSubmit st data osave ofetch
  end.

(** One event handled to completion on the current state. *)
Definition step (st : PageState) (ev : Event) : PageState :=
  apply (handle st ev) st.

(** A sequence of events, each handled to completion before the next. *)
Definition run (evs : list Event) (st : PageState) : PageState :=
  foldl step st evs.

(** The outcome of [fetchArtists] in the handling of an event, if the
    handling gets as far as calling it. *)
Definition fetchOutcome (ev : Event) : option (Outcome (list Artist)) :=
  match ev with
  | MountEffect ofetch => Some ofetch
  | ClickDelete _ true (Resolved _) ofetch => Some ofetch
  | SubmitForm _ (Resolved _) ofetch => Some ofetch
  | _ => None
  end.

(** The page once its mount effect has completed. *)
Definition mounted (ofetch : Outcome (list Artist)) : PageState :=
  apply (mountEffect ofetch) initialState.

End ArtistsPage.

(** ** The form inside the page *)

Module ArtistScreen.

(** The page renders [<ArtistForm onSubmit={handleSubmit}
    onCancel={handleCloseForm} .../>]: a call of a props callback by the
    form is a run of the page's handler, created by the page render [pst]. *)
Definition wire (pst : ArtistsPage.PageState) (osave : Outcome unit)
    (ofetch : Outcome (list Artist)) (e : ArtistForm.Effect)
    : list ArtistsPage.Effect :=
  match e with
  | ArtistForm.OnSubmit data => ArtistsPage.handleSubmit pst data osave ofetch
  | ArtistForm.OnCancel => ArtistsPage.handleCloseForm
  | _ => []
  end.

(** The form's [handleSubmit] with the page's handler as its [onSubmit]:
    the effects on the form. *)
Definition submit (fst : ArtistForm.FormState) (osave : Outcome unit)
    (ofetch : Outcome (list Artist)) : list ArtistForm.Effect :=
  ArtistForm.handleSubmit fst (ArtistsPage.handleSubmit_settles osave ofetch).

(** The effects on the page of that submission, in order. *)
Definition submit_page (pst : ArtistsPage.PageState)
    (fst : ArtistForm.FormState) (osave : Outcome unit)
    (ofetch : Outcome (list Artist)) : list ArtistsPage.Effect :=
  flat_map (wire pst osave ofetch) (submit fst osave ofetch).

End ArtistScreen.

(** ** Sample states and inputs *)

(** A form in create mode after the user typed a description and a name
    and the debounced check answered that the name is taken. *)
Definition taken_name_state : ArtistForm.FormState :=
  ArtistForm.run None
    [ArtistForm.DescriptionChange (js "singer");
     ArtistForm.NameChange (js "IU");
     ArtistForm.NameDebounce
       (Resolved {| isDuplicate := true;
                    duplicateType := Some (js "name");
                    duplicateName := Some (js "IU") |})]
    (ArtistForm.mount None).

(** A form that already holds the alias "a", with " a " typed into the
    alias input. *)
Definition repeated_alias_state : ArtistForm.FormState :=
  {| ArtistForm.formData :=
       {| form_name := js "IU"; form_description := js "singer";
          form_aliases := [{| alias_id := 1; alias_name := js "a" |}] |};
     ArtistForm.newAlias := js " a ";
     ArtistForm.isSubmitting := false;
     ArtistForm.nameError := None;
     ArtistForm.isCheckingDuplicate := false;
     ArtistForm.aliasError := None;
     ArtistForm.isCheckingAliasDuplicate := false |}.

(** The remote answer that a name is free. *)
Definition not_duplicate : DuplicateResult :=
  {| isDuplicate := false; duplicateType := None; duplicateName := None |}.

(** The remote answer that a name is already an artist's name. *)
Definition duplicate_name (name : JsString) : DuplicateResult :=
  {| isDuplicate := true; duplicateType := Some (js "name");
     duplicateName := Some name |}.

(** Two overlapping name checks.  The user fills in a description, types
    the name "a" and pauses: the timer fires and the first check is sent.
    While it is pending the user types on, to "ab", and pauses again: the
    second check is sent.  Then the first check resolves (the name "a" is
    free), the second still being pending; later the second resolves (the
    name "ab" is taken). *)
Definition overlap_typed_a : ArtistForm.FormState :=
  ArtistForm.run None
    [ArtistForm.DescriptionChange (js "singer");
     ArtistForm.NameChange (js "a")]
    (ArtistForm.mount None).

Definition overlap_first_check : list ArtistForm.Effect :=
  ArtistForm.nameDebounce None overlap_typed_a (Resolved not_duplicate).

Definition overlap_first_pending : ArtistForm.FormState :=
  ArtistForm.apply (ArtistForm.untilAwait overlap_first_check) overlap_typed_a.

Definition overlap_typed_ab : ArtistForm.FormState :=
  ArtistForm.step None overlap_first_pending (ArtistForm.NameChange (js "ab")).

Definition overlap_second_check : list ArtistForm.Effect :=
  ArtistForm.nameDebounce None overlap_typed_ab
    (Resolved (duplicate_name (js "ab"))).

Definition overlap_both_pending : ArtistForm.FormState :=
  ArtistForm.apply (ArtistForm.untilAwait overlap_second_check)
    overlap_typed_ab.

Definition overlap_first_settled : ArtistForm.FormState :=
  ArtistForm.apply (ArtistForm.afterAwait overlap_first_check)
    overlap_both_pending.

Definition overlap_second_settled : ArtistForm.FormState :=
  ArtistForm.apply (ArtistForm.afterAwait overlap_second_check)
    overlap_first_settled.

(** A page with the form open in create mode, and the form filled in for a
    new artist. *)
Definition creating_page : ArtistsPage.PageState :=
  ArtistsPage.step (ArtistsPage.mounted (Resolved [])) ArtistsPage.ClickAdd.

Definition filled_form : ArtistForm.FormState :=
  ArtistForm.run None
    [ArtistForm.NameChange (js "BTS");
     ArtistForm.DescriptionChange (js "group")]
    (ArtistForm.mount None).

(** A form in create mode with "IU" typed into the alias input. *)
Definition alias_typed_state : ArtistForm.FormState :=
  ArtistForm.step None (ArtistForm.mount None)
    (ArtistForm.NewAliasChange (js "IU")).

(** An artist of the list, and a page showing her in the detail modal. *)
Definition sample_artist : Artist :=
  {| artist_id := 7; artist_name := js "IU";
     artist_description := js "singer";
     artist_aliases := [{| alias_id := 1; alias_name := js "Lee Ji-eun" |}] |}.

Definition viewing_page : ArtistsPage.PageState :=
  ArtistsPage.step (ArtistsPage.mounted (Resolved [sample_artist]))
    (ArtistsPage.ClickView sample_artist).

(** * Properties *)

(** ** Strings *)

Lemma str_truthy_true (s : JsString) : str_truthy s = true ↔ s ≠ [].
Proof. destruct s; simpl; split; congruence. Qed.

Lemma str_or_empty (s : JsString) : str_or s (js "") = s.
Proof. by destruct s. Qed.

Lemma trimStart_suffix (s : JsString) : trimStart s `suffix_of` s.
Proof.
  induction s as [|c s IH]; simpl; [done|].
  destruct (is_white_space c); [by apply suffix_cons_r | done].
Qed.

Lemma trimStart_head (s : JsString) (c : N) :
  head (trimStart s) = Some c → is_white_space c = false.
Proof.
  induction s as [|a s IH]; simpl; [done|].
  destruct (is_white_space a) eqn:Ha; [done|].
  simpl. by intros [= <-].
Qed.

Lemma suffix_last (l k : JsString) (c : N) :
  l `suffix_of` k → last l = Some c → last k = Some c.
Proof.
  intros [pre ->] Hl. destruct l as [|x l]; [done|].
  rewrite last_app. by rewrite Hl.
Qed.

Lemma trimEnd_last (s : JsString) (c : N) :
  last (trimEnd s) = Some c → is_white_space c = false.
Proof. unfold trimEnd. rewrite last_reverse. apply trimStart_head. Qed.

Lemma trimEnd_head (s : JsString) (c : N) :
  head (trimEnd s) = Some c → head s = Some c.
Proof.
  unfold trimEnd. rewrite head_reverse. intros H.
  rewrite <- (reverse_involutive s), head_reverse.
  by apply (suffix_last _ _ _ (trimStart_suffix (reverse s))).
Qed.

Lemma trim_no_edge_space (s : JsString) : no_edge_space (trim s).
Proof.
  split; intros c H.
  - apply (trimStart_head s). by apply trimEnd_head.
  - by apply (trimEnd_last (trimStart s)).
Qed.

Lemma trimStart_all_space (s : JsString) :
  forallb is_white_space s = true → trimStart s = [].
Proof.
  induction s as [|c s IH]; simpl; [done|].
  destruct (is_white_space c); simpl; [done | discriminate].
Qed.

Lemma trim_all_space (s : JsString) :
  forallb is_white_space s = true → trim s = [].
Proof. intros H. unfold trim. by rewrite (trimStart_all_space s H). Qed.

(** ** ArtistForm: effects and reachable states *)

Section FormFacts.

Import ArtistForm.

Variable props : option Artist → Prop.
Variable initialData : option Artist.
Hypothesis initialData_allowed : props initialData.

Lemma apply_nil (st : FormState) : apply [] st = st.
Proof. done. Qed.

Lemma apply_cons (e : Effect) (effs : list Effect) (st : FormState) :
  apply (e :: effs) st = apply effs (applyEffect e st).
Proof. done. Qed.

Lemma apply_app (effs1 effs2 : list Effect) (st : FormState) :
  apply (effs1 ++ effs2) st = apply effs2 (apply effs1 st).
Proof. unfold apply. by rewrite foldl_app. Qed.

(** A property of states that every effect of a list keeps is kept by the
    whole list. *)
Lemma apply_keeps (P : FormState → Prop) (effs : list Effect) :
  (∀ e st, e ∈ effs → P st → P (applyEffect e st)) →
  ∀ st, P st → P (apply effs st).
Proof.
  induction effs as [|e effs IH]; intros Hk st HP; [done|].
  rewrite apply_cons. apply IH.
  - intros e' st' He'. apply Hk. by right.
  - apply Hk; [by left | done].
Qed.

(** Handling an event to completion stays within the reachable states. *)
Lemma apply_reachable (snap : FormState) (ev : Event) (effs : list Effect) :
  reachable props snap → effs ⊆ handle initialData snap ev →
  ∀ st, reachable props st → reachable props (apply effs st).
Proof.
  intros Hsnap Hsub st Hst.
  apply (apply_keeps (reachable props)); [|done].
  intros e st' He Hst'.
  apply (reachable_effect props initialData st' snap ev); auto.
Qed.

Lemma step_reachable (st : FormState) (ev : Event) :
  reachable props st → reachable props (step initialData st ev).
Proof. intros H. by apply (apply_reachable st ev). Qed.

Lemma mount_reachable : reachable props (mount initialData).
Proof.
  change (mount initialData)
    with (step initialData (initialState initialData) InitialDataEffect).
  by apply step_reachable, reachable_initial.
Qed.

Lemma run_reachable (evs : list Event) (st : FormState) :
  reachable props st → reachable props (run initialData evs st).
Proof.
  revert st. induction evs as [|ev evs IH]; intros st H; [done|].
  simpl. by apply IH, step_reachable.
Qed.

(** An invariant: true initially and kept by every effect a handler can
    issue, whatever state the handler was created in. *)
Lemma reachable_invariant (P : FormState → Prop) :
  (∀ d, props d → P (initialState d)) →
  (∀ d snap ev e st,
     props d → e ∈ handle d snap ev → P st → P (applyEffect e st)) →
  ∀ st, reachable props st → P st.
Proof.
  intros Hinit Hkeep st H.
  induction H as [d Hd|d st snap ev e Hd _ IHst _ _ He]; [by apply Hinit|].
  by apply (Hkeep d snap ev).
Qed.

End FormFacts.

(** ** ArtistForm: the name error *)

Section NameErrorFacts.

Import ArtistForm.

Variable initialData : option Artist.

(** The error messages of the duplicate checks are not empty. *)
Lemma duplicateMessage_truthy (result : DuplicateResult) :
  str_truthy (duplicateMessage result) = true.
Proof. unfold duplicateMessage. by case_bool_decide. Qed.

Ltac writes_ok :=
  repeat first
    [ apply List.Forall_nil
    | apply List.Forall_cons;
      [ first [ exact I | by left | by right
              | right; apply duplicateMessage_truthy ] | ] ].

Lemma checkNameDuplicate_writes (name : JsString) (o : Outcome DuplicateResult) :
  Forall writes_nameError_ok (checkNameDuplicate initialData name o).
Proof.
  unfold checkNameDuplicate.
  destruct (str_truthy (trim name)); simpl; [|writes_ok].
  destruct o as [result|]; [destruct (isDuplicate result)|]; simpl; writes_ok.
Qed.

Lemma handle_writes (snap : FormState) (ev : Event) :
  Forall writes_nameError_ok (handle initialData snap ev).
Proof.
  destruct ev as [|v|v|v|o|o|now o|aliasId]; simpl.
  - unfold initialDataEffect. destruct initialData; writes_ok.
  - unfold nameChange. writes_ok.
  - unfold descriptionChange. writes_ok.
  - unfold newAliasChange. destruct (opt_truthy (aliasError snap)); writes_ok.
  - unfold nameDebounce. destruct (str_truthy _).
    + apply checkNameDuplicate_writes.
    + writes_ok.
  - unfold handleSubmit. destruct (opt_truthy (nameError snap)), o;
      simpl; writes_ok.
  - unfold handleAddAlias.
    destruct (str_truthy _); simpl; [|writes_ok].
    destruct (existsb _ _); [writes_ok|].
    destruct o as [result|]; [destruct (isDuplicate result)|]; simpl;
      writes_ok.
  - unfold handleRemoveAlias. writes_ok.
Qed.

End NameErrorFacts.

(** In every reachable state [nameError] is [null] or a non-empty message. *)
Lemma reachable_nameError (st : ArtistForm.FormState) :
  ArtistForm.reachable ArtistForm.anyProps st →
  ArtistForm.nameError_ok (ArtistForm.nameError st).
Proof.
  intros Hst.
  apply (reachable_invariant ArtistForm.anyProps
           (λ s, ArtistForm.nameError_ok (ArtistForm.nameError s))); [| |done].
  - by left.
  - intros d snap ev e st' _ He Hst'.
    pose proof (handle_writes d snap ev) as Hw.
    rewrite Forall_forall in Hw. specialize (Hw e He).
    destruct e; simpl in *; done.
Qed.

(** ** ArtistForm: the alias list *)

Section AliasFacts.

Import ArtistForm.

Variable initialData : option Artist.

(** What [handleAddAlias] does to the form data of the state its setters
    are applied to. *)
Lemma handleAddAlias_formData (snap : FormState) (now : Z)
    (o : Outcome DuplicateResult) (cur : FormState) :
  formData (apply (handleAddAlias initialData snap now o) cur) =
  if addsAlias snap o
  then {| form_name := form_name (formData cur);
          form_description := form_description (formData cur);
          form_aliases :=
            form_aliases (formData cur)
            ++ [{| alias_id := now; alias_name := trim (newAlias snap) |}] |}
  else formData cur.
Proof.
  unfold handleAddAlias, addsAlias.
  destruct (str_truthy (trim (newAlias snap))); simpl; [|done].
  destruct (existsb _ _); simpl; [done|].
  destruct o as [result|]; [destruct (isDuplicate result)|]; done.
Qed.


Lemma existsb_alias_name (x : JsString) (l : list ArtistAlias) :
  existsb (λ alias, bool_decide (alias_name alias = x)) l = false
  ↔ ∀ a, a ∈ l → alias_name a ≠ x.
Proof.
  induction l as [|b l IH]; simpl.
  - split; [|done]. intros _ a Ha. by apply elem_of_nil in Ha.
  - rewrite orb_false_iff, IH, bool_decide_eq_false. split.
    + intros [Hb Hl] a [->|Ha]%elem_of_cons; auto.
    + intros H. split; [apply H; by left|].
      intros a Ha. apply H. by right.
Qed.

Lemma handleRemoveAlias_formData (aliasId : Z) (cur : FormState) :
  formData (apply (handleRemoveAlias aliasId) cur) =
  {| form_name := form_name (formData cur);
     form_description := form_description (formData cur);
     form_aliases :=
       filter (λ alias, alias_id alias ≠ aliasId) (form_aliases (formData cur)) |}.
Proof. done. Qed.

End AliasFacts.

(** ** ArtistForm in create mode: alias names *)

Section CreateMode.

Import ArtistForm.

Ltac keeps_ok :=
  repeat first
    [ apply List.Forall_nil
    | apply List.Forall_cons; [ first [ exact I | by intros fd | idtac ] | ] ].

(** Every effect a handler of the create-mode form can issue keeps alias
    names non-empty and trimmed. *)
Lemma handle_keeps_alias_names (snap : FormState) (ev : Event) :
  Forall keeps_alias_names (handle None snap ev).
Proof.
  destruct ev as [|v|v|v|o|o|now o|aliasId]; simpl.
  - unfold initialDataEffect. keeps_ok.
  - unfold nameChange. keeps_ok.
  - unfold descriptionChange. keeps_ok.
  - unfold newAliasChange. destruct (opt_truthy (aliasError snap)); keeps_ok.
  - unfold nameDebounce, checkNameDuplicate.
    destruct (str_truthy _); simpl; [|keeps_ok].
    destruct o as [result|]; [destruct (isDuplicate result)|]; simpl; keeps_ok.
  - unfold handleSubmit. destruct (opt_truthy (nameError snap)), o;
      simpl; keeps_ok.
  - unfold handleAddAlias.
    destruct (str_truthy (trim (newAlias snap))) eqn:Hne; simpl; [|keeps_ok].
    destruct (existsb _ _); [keeps_ok|].
    destruct o as [result|]; [destruct (isDuplicate result)|]; simpl; keeps_ok.
    intros fd Hfd. simpl. apply Forall_app. split; [done|].
    apply Forall_singleton. split; [done | apply trim_no_edge_space].
  - unfold handleRemoveAlias. keeps_ok.
    intros fd Hfd. simpl.
    rewrite Forall_forall in Hfd. apply Forall_forall.
    intros a [_ Ha]%list_elem_of_filter. by apply Hfd.
Qed.

End CreateMode.

(** ** ArtistForm: the claims *)

(** X21.  In every state the form can reach in which the duplicate-name
    check has left a name error ([nameError] is not [null]), [handleSubmit]
    only prevents the default action and shows the alert, so [onSubmit] is
    not called; and the submit button is disabled whenever [nameError] is
    set or the flag [isCheckingDuplicate] is set. *)
Theorem submit_gated_by_duplicate_check (st : ArtistForm.FormState)
    (o : Outcome unit) :
  ArtistForm.reachable ArtistForm.anyProps st →
  (ArtistForm.nameError st ≠ None →
     ArtistForm.handleSubmit st o =
       [ArtistForm.PreventDefault;
        ArtistForm.Alert
          (js "중복된 아티스트 이름이 있습니다. 다른 이름을 사용해주세요.")]
     ∧ existsb ArtistForm.is_OnSubmit (ArtistForm.handleSubmit st o) = false)
  ∧ (ArtistForm.nameError st ≠ None ∨ ArtistForm.isCheckingDuplicate st = true →
     ArtistForm.submitDisabled st = true).
Proof.
  intros Hreach.
  assert (Htruthy : ArtistForm.nameError st ≠ None →
                    opt_truthy (ArtistForm.nameError st) = true).
  { intros Hset.
    destruct (reachable_nameError st Hreach); [done | assumption]. }
  split.
  - intros Hset. unfold ArtistForm.handleSubmit.
    by rewrite (Htruthy Hset).
  - intros [Hset | Hcheck]; unfold ArtistForm.submitDisabled.
    + rewrite (Htruthy Hset). by rewrite !orb_true_r.
    + rewrite Hcheck. by rewrite !orb_true_r.
Qed.

Lemma submit_gated_by_duplicate_check_witness :
  ArtistForm.nameError taken_name_state ≠ None
  ∧ existsb ArtistForm.is_OnSubmit
      (ArtistForm.handleSubmit taken_name_state (Resolved tt)) = false
  ∧ ArtistForm.submitDisabled taken_name_state = true.
Proof.
  assert (Hset : ArtistForm.nameError taken_name_state ≠ None)
    by (vm_compute; discriminate).
  destruct (submit_gated_by_duplicate_check taken_name_state (Resolved tt)
              (run_reachable ArtistForm.anyProps None I _ _
                 (mount_reachable ArtistForm.anyProps None I)))
    as [Hsubmit Hdisabled].
  split; [exact Hset|]. split.
  - exact (proj2 (Hsubmit Hset)).
  - exact (Hdisabled (or_introl Hset)).
Defined.

(** C8.  When [handleSubmit] calls [onSubmit] and the callback rejects,
    [onCancel] is not called, the form data of the state the setters are
    applied to is unchanged, and [isSubmitting] ends as [false]. *)
Theorem submit_rejection_keeps_form (st cur : ArtistForm.FormState) :
  existsb ArtistForm.is_OnSubmit (ArtistForm.handleSubmit st Rejected) = true →
  existsb ArtistForm.is_OnCancel (ArtistForm.handleSubmit st Rejected) = false
  ∧ ArtistForm.formData (ArtistForm.apply (ArtistForm.handleSubmit st Rejected) cur)
    = ArtistForm.formData cur
  ∧ ArtistForm.isSubmitting
      (ArtistForm.apply (ArtistForm.handleSubmit st Rejected) cur) = false.
Proof.
  unfold ArtistForm.handleSubmit.
  destruct (opt_truthy (ArtistForm.nameError st)); simpl; [discriminate|].
  by intros _.
Qed.

Lemma submit_rejection_keeps_form_witness :
  existsb ArtistForm.is_OnCancel
    (ArtistForm.handleSubmit (ArtistForm.mount None) Rejected) = false
  ∧ ArtistForm.formData
      (ArtistForm.apply (ArtistForm.handleSubmit (ArtistForm.mount None) Rejected)
         (ArtistForm.mount None))
    = ArtistForm.formData (ArtistForm.mount None)
  ∧ ArtistForm.isSubmitting
      (ArtistForm.apply (ArtistForm.handleSubmit (ArtistForm.mount None) Rejected)
         (ArtistForm.mount None)) = false.
Proof.
  apply (submit_rejection_keeps_form (ArtistForm.mount None) (ArtistForm.mount None)).
  reflexivity.
Defined.

(** C7.  The form is bound to [initialData]: the effect on [initialData]
    sets name, description and aliases to those of the artist being edited,
    or to the empty string, the empty string and the empty list in create
    mode, and clears the pending alias input and both error fields; the
    initial [useState] value of the form data is the same. *)
Theorem form_bound_to_initialData (initialData : option Artist)
    (st : ArtistForm.FormState) :
  let st' := ArtistForm.apply (ArtistForm.initialDataEffect initialData) st in
  let bound :=
    match initialData with
    | Some a => {| form_name := artist_name a;
                   form_description := artist_description a;
                   form_aliases := artist_aliases a |}
    | None => {| form_name := []; form_description := []; form_aliases := [] |}
    end in
  ArtistForm.formData st' = bound
  ∧ ArtistForm.newAlias st' = []
  ∧ ArtistForm.nameError st' = None
  ∧ ArtistForm.aliasError st' = None
  ∧ ArtistForm.formData (ArtistForm.initialState initialData) = bound
  ∧ ArtistForm.formData (ArtistForm.mount initialData) = bound.
Proof.
  destruct initialData as [a|]; simpl; repeat split.
  unfold ArtistForm.initialState. simpl. by rewrite !str_or_empty.
Qed.

(** C10.  [handleRemoveAlias(aliasId)] changes nothing but the alias list:
    name, description and all other state cells are unchanged, no alias
    with id [aliasId] remains, and the aliases with another id are the same
    before and after, occurrence by occurrence. *)
Theorem handleRemoveAlias_frame (aliasId : Z) (st : ArtistForm.FormState) :
  let st' := ArtistForm.apply (ArtistForm.handleRemoveAlias aliasId) st in
  let before := form_aliases (ArtistForm.formData st) in
  let after := form_aliases (ArtistForm.formData st') in
  form_name (ArtistForm.formData st') = form_name (ArtistForm.formData st)
  ∧ form_description (ArtistForm.formData st')
    = form_description (ArtistForm.formData st)
  ∧ Forall (λ alias, alias_id alias ≠ aliasId) after
  ∧ filter (λ alias, alias_id alias ≠ aliasId) after
    = filter (λ alias, alias_id alias ≠ aliasId) before
  ∧ (∀ alias, alias ∈ after ↔ alias ∈ before ∧ alias_id alias ≠ aliasId)
  ∧ (ArtistForm.newAlias st', ArtistForm.isSubmitting st',
     ArtistForm.nameError st', ArtistForm.isCheckingDuplicate st',
     ArtistForm.aliasError st', ArtistForm.isCheckingAliasDuplicate st')
    = (ArtistForm.newAlias st, ArtistForm.isSubmitting st,
       ArtistForm.nameError st, ArtistForm.isCheckingDuplicate st,
       ArtistForm.aliasError st, ArtistForm.isCheckingAliasDuplicate st).
Proof.
  simpl. split; [done|]. split; [done|]. split; [|split; [|split; [|done]]].
  - apply Forall_forall. by intros a [Ha _]%list_elem_of_filter.
  - apply list_filter_filter_l. auto.
  - intros alias. rewrite list_elem_of_filter. tauto.
Qed.

(** C6.  The aliases are an ordered list: [handleAddAlias] either leaves
    the list as it is or puts the new alias, named by the trimmed input,
    after all existing ones; [handleRemoveAlias] leaves a subsequence of the
    list, so the aliases that remain keep their relative order. *)
Theorem alias_operations_respect_order (initialData : option Artist)
    (snap cur : ArtistForm.FormState) (now aliasId : Z)
    (o : Outcome DuplicateResult) :
  form_aliases (ArtistForm.formData
    (ArtistForm.apply (ArtistForm.handleAddAlias initialData snap now o) cur))
  = (if ArtistForm.addsAlias snap o
     then form_aliases (ArtistForm.formData cur)
          ++ [{| alias_id := now;
                 alias_name := trim (ArtistForm.newAlias snap) |}]
     else form_aliases (ArtistForm.formData cur))
  ∧ form_aliases (ArtistForm.formData
      (ArtistForm.apply (ArtistForm.handleRemoveAlias aliasId) cur))
    `sublist_of` form_aliases (ArtistForm.formData cur).
Proof.
  split.
  - rewrite handleAddAlias_formData.
    by destruct (ArtistForm.addsAlias snap o).
  - rewrite handleRemoveAlias_formData. simpl. apply sublist_filter.
Qed.

(** C9.  Starting from the create-mode form, after any sequence of events
    (adding and removing aliases, typing, submitting, name checks), every
    alias of the form has a non-empty name without leading or trailing
    white space.  [handleAddAlias] does nothing on empty or
    white-space-only input; on an input that is not blank, names no alias
    of the form and is reported free by the remote check, it calls the
    remote check with the trimmed input and stores a new alias, named by
    the trimmed input, at the end of the list. *)
Theorem alias_names_trimmed (evs : list ArtistForm.Event) :
  Forall ArtistForm.alias_name_ok
    (form_aliases (ArtistForm.formData
       (ArtistForm.run None evs (ArtistForm.mount None))))
  ∧ (∀ initialData st now o,
       forallb is_white_space (ArtistForm.newAlias st) = true →
       ArtistForm.handleAddAlias initialData st now o = [])
  ∧ (∀ initialData st now result,
       trim (ArtistForm.newAlias st) ≠ [] →
       (∀ alias, alias ∈ form_aliases (ArtistForm.formData st) →
                 alias_name alias ≠ trim (ArtistForm.newAlias st)) →
       isDuplicate result = false →
       form_aliases (ArtistForm.formData
         (ArtistForm.step initialData st
            (ArtistForm.AddAlias now (Resolved result))))
       = form_aliases (ArtistForm.formData st)
         ++ [{| alias_id := now;
                alias_name := trim (ArtistForm.newAlias st) |}]
       ∧ filter ArtistForm.is_CheckArtistDuplicate
           (ArtistForm.handleAddAlias initialData st now (Resolved result))
         = [ArtistForm.CheckArtistDuplicate (trim (ArtistForm.newAlias st))
              (artist_id <$> initialData)]).
Proof.
  split; [|split].
  - apply (reachable_invariant ArtistForm.createMode
             (λ s, Forall ArtistForm.alias_name_ok
                     (form_aliases (ArtistForm.formData s)))).
    + intros d ->. constructor.
    + intros d snap ev e st -> He Hst.
      pose proof (handle_keeps_alias_names snap ev) as Hk.
      rewrite Forall_forall in Hk. specialize (Hk e He).
      destruct e; simpl in *; auto.
    + by apply run_reachable, mount_reachable.
  - intros initialData st now o Hspace.
    unfold ArtistForm.handleAddAlias.
    by rewrite (trim_all_space _ Hspace).
  - intros initialData st now result Hne Hfresh Hfree.
    apply str_truthy_true in Hne.
    apply existsb_alias_name in Hfresh.
    unfold ArtistForm.step. simpl.
    rewrite handleAddAlias_formData.
    unfold ArtistForm.addsAlias, ArtistForm.handleAddAlias.
    by rewrite Hne, Hfresh, Hfree.
Qed.

Lemma alias_names_trimmed_witness :
  form_aliases (ArtistForm.formData
    (ArtistForm.run None
       [ArtistForm.NewAliasChange (js "  Lee Ji-eun ");
        ArtistForm.AddAlias 1700000000000 (Resolved not_duplicate)]
       (ArtistForm.mount None)))
  = [{| alias_id := 1700000000000; alias_name := js "Lee Ji-eun" |}]
  ∧ Forall ArtistForm.alias_name_ok
      [{| alias_id := 1700000000000; alias_name := js "Lee Ji-eun" |}]
  ∧ ArtistForm.handleAddAlias None
      (ArtistForm.step None (ArtistForm.mount None)
         (ArtistForm.NewAliasChange (js "   ")))
      1700000000000 (Resolved not_duplicate) = [].
Proof.
  destruct (alias_names_trimmed
              [ArtistForm.NewAliasChange (js "  Lee Ji-eun ");
               ArtistForm.AddAlias 1700000000000 (Resolved not_duplicate)])
    as (Hnames & Hreject & Hstore).
  split; [|split].
  - apply (Hstore None
             (ArtistForm.step None (ArtistForm.mount None)
                (ArtistForm.NewAliasChange (js "  Lee Ji-eun ")))
             1700000000000 not_duplicate).
    + discriminate.
    + intros alias H. by apply elem_of_nil in H.
    + reflexivity.
  - exact Hnames.
  - apply Hreject. reflexivity.
Defined.



(** ** ArtistsPage: the claims *)

Lemma loadArtists_fetches_once (o : Outcome (list Artist)) :
  filter ArtistsPage.is_FetchArtists (ArtistsPage.loadArtists o)
  = [ArtistsPage.FetchArtists].
Proof. by destruct o. Qed.

Lemma loadArtists_no_closeForm (o : Outcome (list Artist)) :
  existsb ArtistsPage.is_closeForm (ArtistsPage.loadArtists o) = false.
Proof. by destruct o. Qed.

(** C3.  The mount effect calls [fetchArtists] exactly once.  If the call
    resolves, [artists] is the returned list, [error] is [null] and the page
    renders one table row per returned artist, in order; if it rejects,
    [error] is set to the failure message and the page renders it.  In both
    cases [isLoading] ends as [false]. *)
Theorem mount_loads_artists (o : Outcome (list Artist)) :
  let effs := ArtistsPage.mountEffect o in
  let st' := ArtistsPage.apply effs ArtistsPage.initialState in
  filter ArtistsPage.is_FetchArtists effs = [ArtistsPage.FetchArtists]
  ∧ ArtistsPage.isLoading st' = false
  ∧ match o with
    | Resolved data =>
        ArtistsPage.artists st' = data
        ∧ ArtistsPage.error st' = None
        ∧ ArtistsPage.render st'
          = ArtistsPage.Table (map ArtistsPage.row data) None
              {| ArtistsPage.prop_isOpen := false;
                 ArtistsPage.prop_initialData := None |}
    | Rejected =>
        ArtistsPage.artists st' = []
        ∧ ArtistsPage.error st' = Some (js "Failed to load artists")
        ∧ ArtistsPage.render st'
          = ArtistsPage.ErrorBox (js "Failed to load artists")
    end.
Proof.
  simpl. split; [apply loadArtists_fetches_once|].
  by destruct o.
Qed.

(** X22.  [handleSubmit] of the page, taken by itself, first calls the API
    client: [updateArtist] with the id of the artist being edited,
    [createArtist] otherwise.  If that call resolves, the handler then
    refetches the list and closes the form; if it rejects, the handler makes
    no further API call, calls no setter that closes the form, and leaves
    the page state unchanged. *)
Theorem page_submit_saves_then_refetches (st cur : ArtistsPage.PageState)
    (data : FormData) (osave : Outcome unit) (ofetch : Outcome (list Artist)) :
  let save :=
    match ArtistsPage.editingArtist st with
    | Some a => ArtistsPage.UpdateArtist (artist_id a) data
    | None => ArtistsPage.CreateArtist data
    end in
  ∃ rest,
    ArtistsPage.handleSubmit st data osave ofetch = save :: rest
    ∧ match osave with
      | Resolved _ =>
          rest = ArtistsPage.loadArtists ofetch ++ ArtistsPage.handleCloseForm
          ∧ filter ArtistsPage.is_FetchArtists rest = [ArtistsPage.FetchArtists]
          ∧ ArtistsPage.isFormOpen (ArtistsPage.apply (save :: rest) cur) = false
          ∧ ArtistsPage.editingArtist (ArtistsPage.apply (save :: rest) cur) = None
      | Rejected =>
          existsb ArtistsPage.is_apiCall rest = false
          ∧ existsb ArtistsPage.is_closeForm rest = false
          ∧ ArtistsPage.apply (save :: rest) cur = cur
      end.
Proof.
  simpl. unfold ArtistsPage.handleSubmit. eexists. split; [reflexivity|].
  destruct osave as [[]|].
  - split; [done|]. split.
    + rewrite filter_app, loadArtists_fetches_once. done.
    + by destruct (ArtistsPage.editingArtist st), ofetch.
  - destruct (ArtistsPage.editingArtist st), cur; done.
Qed.

(** C5.  [handleDelete] asks for confirmation first.  If the user confirms
    it calls [deleteArtist] once, with the given id; after a resolved delete
    it then calls [fetchArtists] once, and the list in the state becomes the
    fetched one (or, if the refetch rejects, the list is kept and the error
    is set); after a rejected delete there is no refetch and the page state
    is unchanged.  If the user declines it makes no API call and leaves the
    page state unchanged. *)
Theorem delete_is_confirmation_gated (id : Z) (confirmed : bool)
    (odel : Outcome unit) (ofetch : Outcome (list Artist))
    (cur : ArtistsPage.PageState) :
  let effs := ArtistsPage.handleDelete id confirmed odel ofetch in
  let cur' := ArtistsPage.apply effs cur in
  existsb ArtistsPage.is_DeleteArtist effs = confirmed
  ∧ if confirmed
    then filter ArtistsPage.is_DeleteArtist effs = [ArtistsPage.DeleteArtist id]
         ∧ match odel with
           | Resolved _ =>
               effs = [ArtistsPage.Confirm
                         (js "정말로 이 아티스트를 삭제하시겠습니까?");
                       ArtistsPage.DeleteArtist id]
                      ++ ArtistsPage.loadArtists ofetch
               ∧ filter ArtistsPage.is_apiCall effs
                 = [ArtistsPage.DeleteArtist id; ArtistsPage.FetchArtists]
               ∧ ArtistsPage.isLoading cur' = false
               ∧ match ofetch with
                 | Resolved data =>
                     ArtistsPage.artists cur' = data
                     ∧ ArtistsPage.error cur' = None
                 | Rejected =>
                     ArtistsPage.artists cur' = ArtistsPage.artists cur
                     ∧ ArtistsPage.error cur'
                       = Some (js "Failed to load artists")
                 end
           | Rejected =>
               existsb ArtistsPage.is_FetchArtists effs = false
               ∧ cur' = cur
           end
    else existsb ArtistsPage.is_apiCall effs = false
         ∧ cur' = cur.
Proof.
  simpl. destruct confirmed; simpl; [|done].
  destruct odel as [[]|]; simpl.
  - destruct ofetch; done.
  - by destruct cur.
Qed.

(** ** The form inside the page *)

(** The page passes its [handleSubmit] as [onSubmit] and its
    [handleCloseForm] as [onCancel].  Since the page's handler resolves even
    when saving failed, the form then calls [onCancel]: a rejected save is
    not seen by the form as a rejected [onSubmit]. *)
Remark form_calls_onCancel_after_failed_save (st : ArtistForm.FormState)
    (ofetch : Outcome (list Artist)) :
  existsb ArtistForm.is_OnCancel
    (ArtistForm.handleSubmit st
       (ArtistsPage.handleSubmit_settles Rejected ofetch))
  = negb (opt_truthy (ArtistForm.nameError st)).
Proof.
  unfold ArtistForm.handleSubmit. simpl.
  by destruct (opt_truthy (ArtistForm.nameError st)).
Qed.

(** ** Sample runs *)

Example js_hangul : js "가 a" = [44032%N; 32%N; 97%N].
Proof. reflexivity. Qed.

Example trim_ascii : trim (js "  a b " ++ [9%N; 10%N]) = js "a b".
Proof. reflexivity. Qed.

Example trim_ideographic_space : trim (12288%N :: js " 가수 " ++ [160%N]) = js "가수".
Proof. reflexivity. Qed.

Example trim_only_space : trim (js "   ") = [].
Proof. reflexivity. Qed.

Example add_add_remove :
  form_aliases (ArtistForm.formData
    (ArtistForm.run None
       [ArtistForm.NewAliasChange (js "  Lee Ji-eun ");
        ArtistForm.AddAlias 17 (Resolved not_duplicate);
        ArtistForm.NewAliasChange (js "IU");
        ArtistForm.AddAlias 18 (Resolved not_duplicate);
        ArtistForm.NewAliasChange (js "IU ");
        ArtistForm.AddAlias 19 (Resolved not_duplicate);
        ArtistForm.RemoveAlias 17]
       (ArtistForm.mount None)))
  = [{| alias_id := 18; alias_name := js "IU" |}].
Proof. reflexivity. Qed.

Example add_rejected_by_remote :
  let st := ArtistForm.step None (ArtistForm.mount None)
              (ArtistForm.NewAliasChange (js "IU")) in
  let st' := ArtistForm.step None st
               (ArtistForm.AddAlias 17
                  (Resolved {| isDuplicate := true;
                               duplicateType := Some (js "alias");
                               duplicateName := Some (js "IU") |})) in
  form_aliases (ArtistForm.formData st') = []
  ∧ ArtistForm.newAlias st' = js "IU"
  ∧ opt_truthy (ArtistForm.aliasError st') = true
  ∧ ArtistForm.isCheckingAliasDuplicate st' = false.
Proof. by vm_compute. Qed.

Example delete_declined :
  ArtistsPage.handleDelete 7 false (Resolved tt) (Resolved [])
  = [ArtistsPage.Confirm (js "정말로 이 아티스트를 삭제하시겠습니까?")].
Proof. reflexivity. Qed.

(** * Further properties of the form *)

Section FormSteps.

Import ArtistForm.

Variable initialData : option Artist.

(** What each event does to the form data, when handled to completion. *)
Lemma step_formData (st : FormState) (ev : Event) :
  formData (step initialData st ev) =
  match ev with
  | InitialDataEffect =>
      match initialData with
      | Some a => {| form_name := artist_name a;
                     form_description := artist_description a;
                     form_aliases := artist_aliases a |}
      | None => {| form_name := []; form_description := []; form_aliases := [] |}
      end
  | NameChange v =>
      {| form_name := v;
         form_description := form_description (formData st);
         form_aliases := form_aliases (formData st) |}
  | DescriptionChange v =>
      {| form_name := form_name (formData st);
         form_description := v;
         form_aliases := form_aliases (formData st) |}
  | AddAlias now o =>
      if addsAlias st o
      then {| form_name := form_name (formData st);
              form_description := form_description (formData st);
              form_aliases :=
                form_aliases (formData st)
                ++ [{| alias_id := now; alias_name := trim (newAlias st) |}] |}
      else formData st
  | RemoveAlias aliasId =>
      {| form_name := form_name (formData st);
         form_description := form_description (formData st);
         form_aliases :=
           filter (λ alias, alias_id alias ≠ aliasId)
                  (form_aliases (formData st)) |}
  | NewAliasChange _ | NameDebounce _ | Submit _ => formData st
  end.
Proof.
  unfold step. destruct ev as [|v|v|v|o|o|now o|aliasId]; simpl.
  - by destruct initialData.
  - done.
  - done.
  - unfold newAliasChange. by destruct (opt_truthy (aliasError st)).
  - unfold nameDebounce, checkNameDuplicate.
    destruct (str_truthy _); simpl; [|done].
    destruct o as [result|]; [destruct (isDuplicate result)|]; done.
  - unfold handleSubmit. by destruct (opt_truthy (nameError st)), o.
  - apply handleAddAlias_formData.
  - done.
Qed.

(** No event, handled to completion, leaves a busy flag set. *)
Lemma step_busy (st : FormState) (ev : Event) :
  busy st = false → busy (step initialData st ev) = false.
Proof.
  unfold busy, step. intros H.
  apply orb_false_iff in H as [H Hc]. apply orb_false_iff in H as [Hs Hn].
  destruct ev as [|v|v|v|o|o|now o|aliasId]; simpl.
  - destruct initialData; simpl; by rewrite Hs, Hn, Hc.
  - by rewrite Hs, Hn, Hc.
  - by rewrite Hs, Hn, Hc.
  - unfold newAliasChange. destruct (opt_truthy (aliasError st)); simpl;
      by rewrite Hs, Hn, Hc.
  - unfold nameDebounce, checkNameDuplicate.
    destruct (str_truthy _); simpl; [|by rewrite Hs, Hn, Hc].
    destruct o as [result|]; [destruct (isDuplicate result)|]; simpl;
      by rewrite ?Hs, ?Hn, ?Hc.
  - unfold handleSubmit. destruct (opt_truthy (nameError st)), o; simpl;
      by rewrite ?Hs, ?Hn, ?Hc.
  - unfold handleAddAlias.
    destruct (str_truthy _); simpl; [|by rewrite Hs, Hn, Hc].
    destruct (existsb _ (form_aliases _)); simpl; [by rewrite Hs, Hn, Hc|].
    destruct o as [result|]; [destruct (isDuplicate result)|]; simpl;
      by rewrite ?Hs, ?Hn, ?Hc.
  - by rewrite Hs, Hn, Hc.
Qed.

(** A property kept by every event is kept by every run. *)
Lemma run_keeps (P : FormState → Prop) :
  (∀ st ev, P st → P (step initialData st ev)) →
  ∀ evs st, P st → P (run initialData evs st).
Proof.
  intros Hstep evs. induction evs as [|ev evs IH]; intros st H; [done|].
  simpl. by apply IH, Hstep.
Qed.

End FormSteps.

Lemma trimStart_fixed (s : JsString) :
  (∀ c, head s = Some c → is_white_space c = false) → trimStart s = s.
Proof.
  destruct s as [|a s]; simpl; [done|].
  intros H. by rewrite (H a eq_refl).
Qed.

Lemma trimEnd_fixed (s : JsString) :
  (∀ c, last s = Some c → is_white_space c = false) → trimEnd s = s.
Proof.
  intros H. unfold trimEnd. rewrite trimStart_fixed.
  - apply reverse_involutive.
  - intros c. rewrite head_reverse. apply H.
Qed.

Lemma trim_idempotent (s : JsString) : trim (trim s) = trim s.
Proof.
  destruct (trim_no_edge_space s) as [Hhead Hlast].
  unfold trim at 1. by rewrite trimStart_fixed, trimEnd_fixed.
Qed.

(** X1.  Busy flags.  Starting from the mounted form, after any sequence of
    events handled to completion, [isSubmitting], [isCheckingDuplicate] and
    [isCheckingAliasDuplicate] are all [false]: every path of every
    handler, rejections and early returns included, resets the flag it
    set. *)
Theorem no_busy_flag_left_set (initialData : option Artist)
    (evs : list ArtistForm.Event) :
  let st := ArtistForm.run initialData evs (ArtistForm.mount initialData) in
  ArtistForm.isSubmitting st = false
  ∧ ArtistForm.isCheckingDuplicate st = false
  ∧ ArtistForm.isCheckingAliasDuplicate st = false.
Proof.
  simpl.
  assert (H : ArtistForm.busy
                (ArtistForm.run initialData evs (ArtistForm.mount initialData))
              = false).
  { apply (run_keeps initialData (λ s, ArtistForm.busy s = false)).
    - intros st ev. apply step_busy.
    - by destruct initialData. }
  unfold ArtistForm.busy in H.
  apply orb_false_iff in H as [H ?]. by apply orb_false_iff in H as [? ?].
Qed.

(** X2.  The name check decides whether the next submit goes through.  After the
    debounced check of the current name has completed, [handleSubmit] calls
    [onSubmit] exactly when the name is blank (no check is made) or the
    remote check resolved with [isDuplicate] false; a rejected check blocks
    submission like a duplicate does.  The remote check is called exactly
    when the name is not blank, and the form data is not changed. *)
Theorem name_check_decides_submit (initialData : option Artist)
    (st : ArtistForm.FormState) (o : Outcome DuplicateResult)
    (osubmit : Outcome unit) :
  let checked := trim (form_name (ArtistForm.formData st)) in
  let st' := ArtistForm.step initialData st (ArtistForm.NameDebounce o) in
  existsb ArtistForm.is_OnSubmit (ArtistForm.handleSubmit st' osubmit)
  = (negb (str_truthy checked)
     || match o with
        | Resolved result => negb (isDuplicate result)
        | Rejected => false
        end)
  ∧ existsb ArtistForm.is_CheckArtistDuplicate
      (ArtistForm.nameDebounce initialData st o) = str_truthy checked
  ∧ ArtistForm.formData st' = ArtistForm.formData st.
Proof.
  simpl. unfold ArtistForm.step. simpl.
  unfold ArtistForm.nameDebounce, ArtistForm.checkNameDuplicate,
    ArtistForm.handleSubmit.
  destruct (str_truthy (trim (form_name (ArtistForm.formData st)))); simpl.
  - destruct o as [result|]; [destruct (isDuplicate result) eqn:Hdup|]; simpl.
    + by rewrite duplicateMessage_truthy.
    + by destruct osubmit.
    + done.
  - by destruct osubmit.
Qed.

(** X3.  The duplicate check is not a precondition of submitting.  When no name
    error is showing and the user changes the name, a submit made before the
    debounce timer fires calls [onSubmit] once, with the new name, and makes
    no remote check: changing the name neither clears nor sets [nameError],
    and [handleSubmit] looks at nothing else. *)
Theorem changed_name_submitted_unchecked (initialData : option Artist)
    (st : ArtistForm.FormState) (v : JsString) (o : Outcome unit) :
  opt_truthy (ArtistForm.nameError st) = false →
  let st' := ArtistForm.step initialData st (ArtistForm.NameChange v) in
  ArtistForm.nameError st' = ArtistForm.nameError st
  ∧ filter ArtistForm.is_OnSubmit (ArtistForm.handleSubmit st' o)
    = [ArtistForm.OnSubmit
         {| form_name := v;
            form_description := form_description (ArtistForm.formData st);
            form_aliases := form_aliases (ArtistForm.formData st) |}]
  ∧ existsb ArtistForm.is_CheckArtistDuplicate (ArtistForm.handleSubmit st' o)
    = false
  ∧ ArtistForm.submitDisabled st'
    = (ArtistForm.isSubmitting st || negb (str_truthy v)
       || negb (str_truthy (form_description (ArtistForm.formData st)))
       || ArtistForm.isCheckingDuplicate st).
Proof.
  intros Herr. simpl. unfold ArtistForm.step, ArtistForm.handleSubmit,
    ArtistForm.submitDisabled. simpl. rewrite Herr.
  split; [done|]. split; [by destruct o|]. split; [by destruct o|].
  by rewrite orb_false_r.
Qed.

Lemma changed_name_submitted_unchecked_witness :
  filter ArtistForm.is_OnSubmit
    (ArtistForm.handleSubmit
       (ArtistForm.step None (ArtistForm.mount None)
          (ArtistForm.NameChange (js "IU")))
       (Resolved tt))
  = [ArtistForm.OnSubmit
       {| form_name := js "IU"; form_description := []; form_aliases := [] |}].
Proof.
  exact (proj1 (proj2 (changed_name_submitted_unchecked None
                         (ArtistForm.mount None) (js "IU") (Resolved tt)
                         eq_refl))).
Defined.

(** X4.  A name of white space only passes validation.  If the name is not empty
    but consists of white space, the debounced check makes no remote call
    and clears [nameError]; with a non-empty description and no busy flag the
    submit button is then enabled, and [handleSubmit] passes the form data,
    with the name as typed, to [onSubmit]. *)
Theorem white_space_name_is_submitted (initialData : option Artist)
    (st : ArtistForm.FormState) (o : Outcome DuplicateResult)
    (osubmit : Outcome unit) :
  form_name (ArtistForm.formData st) ≠ [] →
  forallb is_white_space (form_name (ArtistForm.formData st)) = true →
  form_description (ArtistForm.formData st) ≠ [] →
  ArtistForm.busy st = false →
  let st' := ArtistForm.step initialData st (ArtistForm.NameDebounce o) in
  existsb ArtistForm.is_CheckArtistDuplicate
    (ArtistForm.nameDebounce initialData st o) = false
  ∧ ArtistForm.nameError st' = None
  ∧ ArtistForm.submitDisabled st' = false
  ∧ filter ArtistForm.is_OnSubmit (ArtistForm.handleSubmit st' osubmit)
    = [ArtistForm.OnSubmit (ArtistForm.formData st)].
Proof.
  intros Hname Hspace Hdesc Hbusy. simpl.
  apply str_truthy_true in Hname, Hdesc.
  unfold ArtistForm.busy in Hbusy.
  apply orb_false_iff in Hbusy as [Hbusy _].
  apply orb_false_iff in Hbusy as [Hsub Hchk].
  unfold ArtistForm.step, ArtistForm.submitDisabled, ArtistForm.handleSubmit.
  simpl. unfold ArtistForm.nameDebounce.
  rewrite (trim_all_space _ Hspace). simpl.
  rewrite Hname, Hdesc, Hsub, Hchk. by destruct osubmit.
Qed.

Lemma white_space_name_is_submitted_witness :
  let st := ArtistForm.run None
              [ArtistForm.NameChange (js "  ");
               ArtistForm.DescriptionChange (js "singer")]
              (ArtistForm.mount None) in
  let st' := ArtistForm.step None st (ArtistForm.NameDebounce Rejected) in
  ArtistForm.submitDisabled st' = false
  ∧ filter ArtistForm.is_OnSubmit (ArtistForm.handleSubmit st' (Resolved tt))
    = [ArtistForm.OnSubmit
         {| form_name := js "  "; form_description := js "singer";
            form_aliases := [] |}].
Proof.
  simpl.
  destruct (white_space_name_is_submitted None
              (ArtistForm.run None
                 [ArtistForm.NameChange (js "  ");
                  ArtistForm.DescriptionChange (js "singer")]
                 (ArtistForm.mount None))
              Rejected (Resolved tt))
    as (_ & _ & Hdisabled & Hsubmit);
    [discriminate | reflexivity | discriminate | reflexivity |].
  split; [exact Hdisabled | exact Hsubmit].
Defined.

(** Goes through the effects of a concrete list that hypothesis [H] says
    a given effect is among, leaving the ones it can be. *)
Ltac scan_effects H :=
  repeat (apply elem_of_cons in H as [H|H]; [try discriminate|]);
  try (by apply elem_of_nil in H).

(** X5.  The remote duplicate check, in whichever handler it is made, is called
    with a name that is not blank and with the id of the artist being edited
    ([undefined] in create mode); at most one such call is made per
    handler run. *)
Theorem remote_check_arguments (initialData : option Artist)
    (snap : ArtistForm.FormState) (ev : ArtistForm.Event) :
  (∀ name excludeId,
     ArtistForm.CheckArtistDuplicate name excludeId
       ∈ ArtistForm.handle initialData snap ev →
     str_truthy (trim name) = true
     ∧ excludeId = artist_id <$> initialData)
  ∧ (length (filter ArtistForm.is_CheckArtistDuplicate
               (ArtistForm.handle initialData snap ev)) ≤ 1)%nat.
Proof.
  destruct ev as [|v|v|v|o|o|now o|aliasId]; simpl.
  - split; [|destruct initialData; simpl; lia].
    intros name x H. unfold ArtistForm.initialDataEffect in H.
    destruct initialData; scan_effects H.
  - split; [|simpl; lia]. intros name x H. unfold ArtistForm.nameChange in H.
    scan_effects H.
  - split; [|simpl; lia]. intros name x H. unfold ArtistForm.descriptionChange in H.
    scan_effects H.
  - unfold ArtistForm.newAliasChange.
    destruct (opt_truthy (ArtistForm.aliasError snap));
      (split; [intros name x H; scan_effects H | simpl; lia]).
  - unfold ArtistForm.nameDebounce, ArtistForm.checkNameDuplicate.
    destruct (str_truthy (trim (form_name (ArtistForm.formData snap)))) eqn:Hn;
      simpl; [|split; [intros name x H; scan_effects H | simpl; lia]].
    split.
    + intros name x H.
      destruct o as [result|]; [destruct (isDuplicate result)|]; simpl in H;
        scan_effects H;
        by injection H as -> ->.
    + destruct o as [result|]; [destruct (isDuplicate result)|]; simpl; lia.
  - unfold ArtistForm.handleSubmit.
    split.
    + intros name x H.
      destruct (opt_truthy (ArtistForm.nameError snap)), o; simpl in H;
        scan_effects H.
    + destruct (opt_truthy (ArtistForm.nameError snap)), o; simpl; lia.
  - unfold ArtistForm.handleAddAlias.
    destruct (str_truthy (trim (ArtistForm.newAlias snap))) eqn:Hn; simpl;
      [|split; [intros name x H; scan_effects H | lia]].
    destruct (existsb _ (form_aliases _)); simpl.
    { split; [|lia]. intros name x H.
      scan_effects H. }
    split.
    + intros name x H.
      destruct o as [result|]; [destruct (isDuplicate result)|]; simpl in H;
        scan_effects H;
        injection H as -> ->; by rewrite trim_idempotent.
    + destruct o as [result|]; [destruct (isDuplicate result)|]; simpl; lia.
  - split; [|simpl; lia]. intros name x H. unfold ArtistForm.handleRemoveAlias in H.
    scan_effects H.
Qed.

(** ** The alias list *)

Lemma filter_keeps_all {A : Type} (P : A → Prop) `{!∀ x, Decision (P x)}
    (l : list A) :
  (∀ x, x ∈ l → P x) → filter P l = l.
Proof.
  induction l as [|a l IH]; intros Hall; [done|].
  rewrite filter_cons_True by (apply Hall; by left).
  f_equal. apply IH. intros x Hx. apply Hall. by right.
Qed.

Lemma NoDup_names_filter (P : ArtistAlias → Prop) `{!∀ x, Decision (P x)}
    (l : list ArtistAlias) :
  NoDup (alias_name <$> l) → NoDup (alias_name <$> filter P l).
Proof.
  induction l as [|a l IH]; [done|].
  rewrite fmap_cons, NoDup_cons. intros [Ha Hl].
  rewrite filter_cons. destruct (decide (P a)); [|by apply IH].
  rewrite fmap_cons, NoDup_cons. split; [|by apply IH].
  intros (b & Hb & [_ Hin]%list_elem_of_filter)%list_elem_of_fmap.
  apply Ha. apply list_elem_of_fmap. by exists b.
Qed.

(** X6.  An attempt to add a non-blank alias, handled to completion, has one of
    two outcomes.  Either the alias is appended, the alias input is emptied
    and the alias error is cleared; or the form data and the alias input
    are left as they were and a non-empty alias error is shown.  The name
    error is untouched in both. *)
Theorem add_attempt_outcome (initialData : option Artist)
    (st : ArtistForm.FormState) (now : Z) (o : Outcome DuplicateResult) :
  str_truthy (trim (ArtistForm.newAlias st)) = true →
  let st' := ArtistForm.step initialData st (ArtistForm.AddAlias now o) in
  ArtistForm.nameError st' = ArtistForm.nameError st
  ∧ if ArtistForm.addsAlias st o
    then form_aliases (ArtistForm.formData st')
         = form_aliases (ArtistForm.formData st)
           ++ [{| alias_id := now;
                  alias_name := trim (ArtistForm.newAlias st) |}]
         ∧ ArtistForm.newAlias st' = []
         ∧ ArtistForm.aliasError st' = None
    else ArtistForm.formData st' = ArtistForm.formData st
         ∧ ArtistForm.newAlias st' = ArtistForm.newAlias st
         ∧ opt_truthy (ArtistForm.aliasError st') = true.
Proof.
  intros Hne. simpl.
  unfold ArtistForm.step, ArtistForm.addsAlias. simpl.
  unfold ArtistForm.handleAddAlias. rewrite Hne. simpl.
  destruct (existsb _ (form_aliases _)); simpl; [done|].
  destruct o as [result|]; [destruct (isDuplicate result)|]; simpl;
    try done.
  by rewrite duplicateMessage_truthy.
Qed.

Lemma add_attempt_outcome_witness :
  let st' := ArtistForm.step None alias_typed_state
               (ArtistForm.AddAlias 17 Rejected) in
  ArtistForm.formData st' = ArtistForm.formData alias_typed_state
  ∧ ArtistForm.newAlias st' = js "IU"
  ∧ opt_truthy (ArtistForm.aliasError st') = true.
Proof.
  exact (proj2 (add_attempt_outcome None alias_typed_state 17 Rejected
                  eq_refl)).
Defined.

(** X7.  Alias names stay distinct when events do not overlap.  If the aliases of
    [initialData] have distinct names (none in create mode), then after any
    sequence of events, each handled to completion before the next, no two
    aliases of the form have the same name. *)
Theorem alias_names_distinct (initialData : option Artist)
    (evs : list ArtistForm.Event) :
  NoDup (alias_name <$> from_option artist_aliases [] initialData) →
  NoDup (alias_name <$>
           form_aliases (ArtistForm.formData
             (ArtistForm.run initialData evs (ArtistForm.mount initialData)))).
Proof.
  intros Hinit.
  apply (run_keeps initialData
           (λ s, NoDup (alias_name <$> form_aliases (ArtistForm.formData s)))).
  - intros st ev Hst. rewrite step_formData.
    destruct ev as [|v|v|v|o|o|now o|aliasId]; simpl; try done.
    + by destruct initialData.
    + destruct (ArtistForm.addsAlias st o) eqn:Hadd; [|done]. simpl.
      unfold ArtistForm.addsAlias in Hadd.
      apply andb_true_iff in Hadd as [Hadd _].
      apply andb_true_iff in Hadd as [_ Hfresh].
      apply negb_true_iff in Hfresh.
      pose proof (proj1 (existsb_alias_name _ _) Hfresh) as Hother.
      rewrite fmap_app. apply NoDup_app. split; [done|]. split.
      * intros x (a & -> & Ha)%list_elem_of_fmap Hx.
        apply list_elem_of_singleton in Hx. by apply (Hother a).
      * apply NoDup_singleton.
    + by apply NoDup_names_filter.
  - by destruct initialData.
Qed.

Lemma alias_names_distinct_witness :
  NoDup (alias_name <$>
           form_aliases (ArtistForm.formData
             (ArtistForm.run None
                [ArtistForm.NewAliasChange (js "IU");
                 ArtistForm.AddAlias 17 (Resolved not_duplicate);
                 ArtistForm.NewAliasChange (js " IU ");
                 ArtistForm.AddAlias 18 (Resolved not_duplicate)]
                (ArtistForm.mount None)))).
Proof.
  apply (alias_names_distinct None). simpl. apply NoDup_nil_2.
Defined.

(** X8.  Overlapping adds defeat the local uniqueness check.  [handleAddAlias]
    compares the entered name with the aliases of the render it was created
    in and does not look at [isCheckingAliasDuplicate].  So when a second
    add of the same input starts while the first is awaiting the remote
    check (the add button is disabled then, the Enter key is not), and both
    remote checks answer that the name is free, the name is appended twice. *)
Theorem overlapping_adds_duplicate_alias (initialData : option Artist)
    (snap : ArtistForm.FormState) (now1 now2 : Z)
    (result1 result2 : DuplicateResult) :
  ArtistForm.addsAlias snap (Resolved result1) = true →
  isDuplicate result2 = false →
  let first :=
    ArtistForm.handleAddAlias initialData snap now1 (Resolved result1) in
  let waiting := ArtistForm.apply (ArtistForm.untilAwait first) snap in
  let second :=
    ArtistForm.handleAddAlias initialData waiting now2 (Resolved result2) in
  let final :=
    ArtistForm.apply (ArtistForm.afterAwait second)
      (ArtistForm.apply (ArtistForm.afterAwait first)
         (ArtistForm.apply (ArtistForm.untilAwait second) waiting)) in
  ArtistForm.addAliasDisabled waiting = true
  ∧ form_aliases (ArtistForm.formData final)
    = form_aliases (ArtistForm.formData snap)
      ++ [{| alias_id := now1; alias_name := trim (ArtistForm.newAlias snap) |};
          {| alias_id := now2; alias_name := trim (ArtistForm.newAlias snap) |}]
  ∧ ¬ NoDup (alias_name <$> form_aliases (ArtistForm.formData final)).
Proof.
  intros Hadd Hfree2.
  unfold ArtistForm.addsAlias in Hadd.
  apply andb_true_iff in Hadd as [Hadd Hfree1].
  apply andb_true_iff in Hadd as [Hne Hfresh].
  apply negb_true_iff in Hfree1, Hfresh.
  assert (Hfirst :
    ArtistForm.untilAwait
      (ArtistForm.handleAddAlias initialData snap now1 (Resolved result1))
    = [ArtistForm.SetIsCheckingAliasDuplicate true;
       ArtistForm.CheckArtistDuplicate (trim (ArtistForm.newAlias snap))
         (ArtistForm.initialId initialData)]).
  { unfold ArtistForm.handleAddAlias. by rewrite Hne, Hfresh, Hfree1. }
  simpl. rewrite Hfirst.
  unfold ArtistForm.handleAddAlias, ArtistForm.addAliasDisabled. simpl.
  rewrite Hne, Hfresh, Hfree1, Hfree2. simpl.
  split; [by rewrite ?orb_true_r|].
  rewrite <- app_assoc. simpl. split; [done|].
  rewrite fmap_app, NoDup_app. intros (_ & _ & Hdup).
  simpl in Hdup. apply NoDup_cons in Hdup as [Hdup _].
  apply Hdup. by left.
Qed.

Lemma overlapping_adds_duplicate_alias_witness :
  let first :=
    ArtistForm.handleAddAlias None alias_typed_state 17 (Resolved not_duplicate) in
  let waiting := ArtistForm.apply (ArtistForm.untilAwait first) alias_typed_state in
  let second :=
    ArtistForm.handleAddAlias None waiting 18 (Resolved not_duplicate) in
  let final :=
    ArtistForm.apply (ArtistForm.afterAwait second)
      (ArtistForm.apply (ArtistForm.afterAwait first)
         (ArtistForm.apply (ArtistForm.untilAwait second) waiting)) in
  form_aliases (ArtistForm.formData final)
  = [{| alias_id := 17; alias_name := js "IU" |};
     {| alias_id := 18; alias_name := js "IU" |}].
Proof.
  exact (proj1 (proj2 (overlapping_adds_duplicate_alias None alias_typed_state
                         17 18 not_duplicate not_duplicate
                         eq_refl eq_refl))).
Defined.

(** X9.  Adding an alias and removing it again is a round trip on the form
    data, provided the id given to the new alias ([Date.now()]) is not the id
    of an alias already in the form. *)
Theorem add_then_remove_restores (initialData : option Artist)
    (st : ArtistForm.FormState) (now : Z) (o : Outcome DuplicateResult) :
  ArtistForm.addsAlias st o = true →
  (∀ alias, alias ∈ form_aliases (ArtistForm.formData st) →
            alias_id alias ≠ now) →
  ArtistForm.formData
    (ArtistForm.run initialData
       [ArtistForm.AddAlias now o; ArtistForm.RemoveAlias now] st)
  = ArtistForm.formData st.
Proof.
  intros Hadd Hfresh. simpl.
  rewrite !step_formData, Hadd. simpl.
  rewrite filter_app, (filter_keeps_all _ _ Hfresh).
  rewrite filter_cons_False by (simpl; auto).
  rewrite filter_nil, app_nil_r. by destruct (ArtistForm.formData st).
Qed.

Lemma add_then_remove_restores_witness :
  ArtistForm.formData
    (ArtistForm.run None
       [ArtistForm.AddAlias 17 (Resolved not_duplicate);
        ArtistForm.RemoveAlias 17] alias_typed_state)
  = ArtistForm.formData alias_typed_state.
Proof.
  apply (add_then_remove_restores None alias_typed_state 17
           (Resolved not_duplicate)); [reflexivity|].
  intros alias H. by apply elem_of_nil in H.
Defined.

(** X10.  Removing an alias id that no alias of the form has changes nothing. *)
Theorem remove_absent_alias_is_noop (initialData : option Artist)
    (st : ArtistForm.FormState) (aliasId : Z) :
  (∀ alias, alias ∈ form_aliases (ArtistForm.formData st) →
            alias_id alias ≠ aliasId) →
  ArtistForm.step initialData st (ArtistForm.RemoveAlias aliasId) = st.
Proof.
  intros Habsent. unfold ArtistForm.step. simpl.
  rewrite (filter_keeps_all _ _ Habsent).
  by destruct st as [[] ? ? ? ? ? ?].
Qed.

Lemma remove_absent_alias_is_noop_witness :
  ArtistForm.step None repeated_alias_state (ArtistForm.RemoveAlias 2)
  = repeated_alias_state.
Proof.
  apply (remove_absent_alias_is_noop None repeated_alias_state 2).
  intros alias H. apply list_elem_of_singleton in H as ->. simpl. lia.
Defined.

(** X11.  Removing the same alias id twice is the same as removing it once, and
    removals of two ids can be made in either order. *)
Theorem remove_alias_idempotent_commutes (initialData : option Artist)
    (st : ArtistForm.FormState) (id1 id2 : Z) :
  ArtistForm.run initialData
    [ArtistForm.RemoveAlias id1; ArtistForm.RemoveAlias id1] st
  = ArtistForm.run initialData [ArtistForm.RemoveAlias id1] st
  ∧ ArtistForm.run initialData
      [ArtistForm.RemoveAlias id1; ArtistForm.RemoveAlias id2] st
    = ArtistForm.run initialData
        [ArtistForm.RemoveAlias id2; ArtistForm.RemoveAlias id1] st.
Proof.
  unfold ArtistForm.run, ArtistForm.step. simpl. split.
  - unfold ArtistForm.apply. simpl. do 2 f_equal.
    apply list_filter_filter_l. auto.
  - unfold ArtistForm.apply. simpl. do 2 f_equal.
    rewrite !list_filter_filter. apply list_filter_iff. tauto.
Qed.

(** X12.  [handleSubmit] of the form calls [onSubmit] at most once, with the form
    data of its render exactly as typed, and calls [onCancel] only after a
    resolved [onSubmit]; whatever happens, the only state cell it writes is
    [isSubmitting], which it leaves [false] once it has called [onSubmit]. *)
Theorem form_submit_effects (st cur : ArtistForm.FormState)
    (o : Outcome unit) :
  let effs := ArtistForm.handleSubmit st o in
  filter ArtistForm.is_OnSubmit effs
  = (if opt_truthy (ArtistForm.nameError st) then []
     else [ArtistForm.OnSubmit (ArtistForm.formData st)])
  ∧ existsb ArtistForm.is_OnCancel effs
    = (negb (opt_truthy (ArtistForm.nameError st))
       && match o with Resolved _ => true | Rejected => false end)
  ∧ existsb ArtistForm.is_OnCancel (ArtistForm.untilAwait effs) = false
  ∧ ArtistForm.apply effs cur
    = (if opt_truthy (ArtistForm.nameError st) then cur
       else ArtistForm.applyEffect (ArtistForm.SetIsSubmitting false) cur).
Proof.
  simpl. unfold ArtistForm.handleSubmit.
  destruct (opt_truthy (ArtistForm.nameError st)), o; simpl; repeat split;
    by destruct cur.
Qed.

(** * Further properties of the page *)

Section PageSteps.

Import ArtistsPage.

Lemma run_keeps_page (P : PageState → Prop) :
  (∀ st ev, P st → P (step st ev)) →
  ∀ evs st, P st → P (run evs st).
Proof.
  intros Hstep evs. induction evs as [|ev evs IH]; intros st H; [done|].
  simpl. by apply IH, Hstep.
Qed.

(** No event sets [isLoading] back to [true]. *)
Lemma step_isLoading (st : PageState) (ev : Event) :
  isLoading st = false → isLoading (step st ev) = false.
Proof.
  intros H. unfold step.
  destruct ev as [o|id c od o|a|a| | | | |data os o]; simpl; try done.
  - by destruct o.
  - destruct c; simpl; [|done].
    destruct od; simpl; [by destruct o | done].
  - unfold modalEdit. by destruct (selectedArtist st).
  - unfold handleSubmit.
    destruct (editingArtist st), os; simpl; try done; by destruct o.
Qed.

(** While the form is closed, no artist is being edited. *)
Lemma step_closed_form (st : PageState) (ev : Event) :
  (isFormOpen st = false → editingArtist st = None) →
  isFormOpen (step st ev) = false → editingArtist (step st ev) = None.
Proof.
  intros H. unfold step.
  destruct ev as [o|id c od o|a|a| | | | |data os o]; simpl; try done.
  - by destruct o.
  - destruct c; simpl; [|done].
    destruct od; simpl; [by destruct o | done].
  - unfold modalEdit. by destruct (selectedArtist st).
  - unfold handleSubmit.
    destruct os; [by destruct (editingArtist st), o|].
    by destruct (editingArtist st) eqn:He; simpl; rewrite ?He.
Qed.

End PageSteps.

(** X13.  The loading spinner is shown until the first load completes and never
    again: the page starts with the spinner, and after the mount effect no
    sequence of events sets [isLoading], so refetches happen behind the
    rendered page. *)
Theorem spinner_only_before_first_load (ofetch : Outcome (list Artist))
    (evs : list ArtistsPage.Event) :
  let st := ArtistsPage.run evs (ArtistsPage.mounted ofetch) in
  ArtistsPage.render ArtistsPage.initialState = ArtistsPage.Spinner
  ∧ ArtistsPage.isLoading st = false
  ∧ ArtistsPage.render st ≠ ArtistsPage.Spinner.
Proof.
  simpl. split; [done|].
  assert (H : ArtistsPage.isLoading
                (ArtistsPage.run evs (ArtistsPage.mounted ofetch)) = false).
  { apply (run_keeps_page (λ s, ArtistsPage.isLoading s = false)).
    - apply step_isLoading.
    - by destruct ofetch. }
  split; [done|]. unfold ArtistsPage.render. rewrite H.
  destruct (ArtistsPage.error _) as [msg|]; [destruct (str_truthy msg)|]; done.
Qed.

(** X14.  The add button opens the form in create mode.  After any sequence of
    events, when the form is closed no artist is being edited, so clicking
    the add button opens the form with no [initialData]. *)
Theorem add_button_opens_create_mode (ofetch : Outcome (list Artist))
    (evs : list ArtistsPage.Event) :
  let st := ArtistsPage.run evs (ArtistsPage.mounted ofetch) in
  ArtistsPage.isFormOpen st = false →
  ArtistsPage.editingArtist st = None
  ∧ ArtistsPage.isFormOpen (ArtistsPage.step st ArtistsPage.ClickAdd) = true
  ∧ ArtistsPage.editingArtist (ArtistsPage.step st ArtistsPage.ClickAdd) = None.
Proof.
  simpl. intros Hclosed.
  assert (H : ArtistsPage.editingArtist
                (ArtistsPage.run evs (ArtistsPage.mounted ofetch)) = None).
  { revert Hclosed.
    apply (run_keeps_page
             (λ s, ArtistsPage.isFormOpen s = false →
                   ArtistsPage.editingArtist s = None)).
    - apply step_closed_form.
    - by destruct ofetch. }
  done.
Qed.

Lemma add_button_opens_create_mode_witness :
  let st := ArtistsPage.run
              [ArtistsPage.ClickEdit sample_artist; ArtistsPage.CloseForm]
              (ArtistsPage.mounted (Resolved [sample_artist])) in
  ArtistsPage.editingArtist (ArtistsPage.step st ArtistsPage.ClickAdd) = None.
Proof.
  exact (proj2 (proj2 (add_button_opens_create_mode (Resolved [sample_artist])
                         [ArtistsPage.ClickEdit sample_artist;
                          ArtistsPage.CloseForm]
                         eq_refl))).
Defined.

(** X15.  The list and the error change only with a fetch.  Whatever the event,
    [artists] is replaced only by the list of a resolved [fetchArtists] and
    [error] is written only when [fetchArtists] settles; so a create, update
    or delete shows in the table only through the refetch, and a failed
    create, update or delete leaves both as they were. *)
Theorem list_changes_only_by_fetch (st : ArtistsPage.PageState)
    (ev : ArtistsPage.Event) :
  let st' := ArtistsPage.step st ev in
  ArtistsPage.artists st'
  = match ArtistsPage.fetchOutcome ev with
    | Some (Resolved data) => data
    | _ => ArtistsPage.artists st
    end
  ∧ ArtistsPage.error st'
    = match ArtistsPage.fetchOutcome ev with
      | Some (Resolved _) => None
      | Some Rejected => Some (js "Failed to load artists")
      | None => ArtistsPage.error st
      end
  ∧ filter ArtistsPage.is_FetchArtists (ArtistsPage.handle st ev)
    = match ArtistsPage.fetchOutcome ev with
      | Some _ => [ArtistsPage.FetchArtists]
      | None => []
      end.
Proof.
  simpl. unfold ArtistsPage.step.
  destruct ev as [o|id c od o|a|a| | | | |data os o]; simpl; try done.
  - by destruct o.
  - destruct c; simpl; [|done].
    destruct od; simpl; [by destruct o | done].
  - unfold ArtistsPage.modalEdit.
    by destruct (ArtistsPage.selectedArtist st).
  - unfold ArtistsPage.handleSubmit.
    destruct (ArtistsPage.editingArtist st), os; simpl; try done;
      by destruct o.
Qed.

(** X16.  A failed fetch hides the page behind the error message.  When an
    event's [fetchArtists] rejects (on mount, or as the refetch after a
    delete or a save that succeeded), the list in the state is kept but the
    page renders only the error box: no table, no modal, no form. *)
Theorem failed_fetch_renders_error_only (st : ArtistsPage.PageState)
    (ev : ArtistsPage.Event) :
  ArtistsPage.fetchOutcome ev = Some Rejected →
  ArtistsPage.artists (ArtistsPage.step st ev) = ArtistsPage.artists st
  ∧ ArtistsPage.render (ArtistsPage.step st ev)
    = ArtistsPage.ErrorBox (js "Failed to load artists").
Proof.
  unfold ArtistsPage.step.
  destruct ev as [o|id c od o|a|a| | | | |data os o]; simpl; try done.
  - by intros [= ->].
  - destruct c, od; simpl; try done. by intros [= ->].
  - destruct os; simpl; [|done]. intros [= ->].
    unfold ArtistsPage.handleSubmit.
    by destruct (ArtistsPage.editingArtist st).
Qed.

Lemma failed_fetch_renders_error_only_witness :
  ArtistsPage.render
    (ArtistsPage.step (ArtistsPage.mounted (Resolved [sample_artist]))
       (ArtistsPage.ClickDelete 7 true (Resolved tt) Rejected))
  = ArtistsPage.ErrorBox (js "Failed to load artists").
Proof.
  exact (proj2 (failed_fetch_renders_error_only
                  (ArtistsPage.mounted (Resolved [sample_artist]))
                  (ArtistsPage.ClickDelete 7 true (Resolved tt) Rejected)
                  eq_refl)).
Defined.

(** X17.  The edit button of the detail modal moves from the modal to the edit
    form of the same artist: the modal is closed, the form is opened with
    the selected artist as [initialData], and the list, the loading flag and
    the error are untouched, so a rendered table stays as it was. *)
Theorem modal_edit_opens_form_for_selected (st : ArtistsPage.PageState)
    (artist : Artist) :
  ArtistsPage.selectedArtist st = Some artist →
  let st' := ArtistsPage.step st ArtistsPage.ClickModalEdit in
  ArtistsPage.selectedArtist st' = None
  ∧ ArtistsPage.editingArtist st' = Some artist
  ∧ ArtistsPage.isFormOpen st' = true
  ∧ ArtistsPage.render st'
    = match ArtistsPage.render st with
      | ArtistsPage.Table rows _ _ =>
          ArtistsPage.Table rows None
            {| ArtistsPage.prop_isOpen := true;
               ArtistsPage.prop_initialData := Some artist |}
      | view => view
      end.
Proof.
  intros Hsel. simpl. unfold ArtistsPage.step. simpl.
  unfold ArtistsPage.modalEdit. rewrite Hsel. simpl.
  repeat split. unfold ArtistsPage.render. simpl.
  destruct (ArtistsPage.isLoading st); [done|].
  destruct (ArtistsPage.error st) as [msg|]; [destruct (str_truthy msg)|];
    done.
Qed.

Lemma modal_edit_opens_form_for_selected_witness :
  ArtistsPage.render (ArtistsPage.step viewing_page ArtistsPage.ClickModalEdit)
  = ArtistsPage.Table [ArtistsPage.row sample_artist] None
      {| ArtistsPage.prop_isOpen := true;
         ArtistsPage.prop_initialData := Some sample_artist |}.
Proof.
  exact (proj2 (proj2 (proj2 (modal_edit_opens_form_for_selected viewing_page
                                sample_artist eq_refl)))).
Defined.

(** X18.  Opening and closing is a round trip.  On a page with the form closed,
    no artist being edited and no artist selected, opening the form (for an
    artist or for a new one) and closing it, or opening the detail modal and
    closing it, gives back the same page state. *)
Theorem open_then_close_restores (st : ArtistsPage.PageState)
    (artist : Artist) :
  ArtistsPage.isFormOpen st = false →
  ArtistsPage.editingArtist st = None →
  ArtistsPage.selectedArtist st = None →
  ArtistsPage.run [ArtistsPage.ClickEdit artist; ArtistsPage.CloseForm] st = st
  ∧ ArtistsPage.run [ArtistsPage.ClickAdd; ArtistsPage.CloseForm] st = st
  ∧ ArtistsPage.run [ArtistsPage.ClickView artist; ArtistsPage.CloseModal] st
    = st.
Proof.
  destruct st as [arts load err open editing sel]. simpl.
  by intros -> -> ->.
Qed.

Lemma open_then_close_restores_witness :
  ArtistsPage.run [ArtistsPage.ClickEdit sample_artist; ArtistsPage.CloseForm]
    (ArtistsPage.mounted (Resolved [sample_artist]))
  = ArtistsPage.mounted (Resolved [sample_artist]).
Proof.
  exact (proj1 (open_then_close_restores
                  (ArtistsPage.mounted (Resolved [sample_artist]))
                  sample_artist eq_refl eq_refl eq_refl)).
Defined.

(** * The form inside the page: a submission from end to end *)

(** X19.  When the form's [handleSubmit] runs with the page's handlers as its
    callbacks, a name error stops it before the page is involved.
    Otherwise the page's first effect is the save call, carrying the form
    data as typed ([updateArtist] with the id of the artist being edited,
    else [createArtist]); the list is refetched exactly when the save
    resolved; and the form ends closed with no artist being edited whether
    the save resolved or rejected.  A rejected save changes nothing else on
    the page: it is reported to the console only. *)
Theorem screen_submit_closes_form (pst cur : ArtistsPage.PageState)
    (fst : ArtistForm.FormState) (osave : Outcome unit)
    (ofetch : Outcome (list Artist)) :
  let effs := ArtistScreen.submit_page pst fst osave ofetch in
  let cur' := ArtistsPage.apply effs cur in
  if opt_truthy (ArtistForm.nameError fst) then effs = []
  else
    head effs
    = Some match ArtistsPage.editingArtist pst with
           | Some a =>
               ArtistsPage.UpdateArtist (artist_id a) (ArtistForm.formData fst)
           | None => ArtistsPage.CreateArtist (ArtistForm.formData fst)
           end
    ∧ filter ArtistsPage.is_FetchArtists effs
      = match osave with
        | Resolved _ => [ArtistsPage.FetchArtists]
        | Rejected => []
        end
    ∧ ArtistsPage.isFormOpen cur' = false
    ∧ ArtistsPage.editingArtist cur' = None
    ∧ match osave with
      | Resolved _ => True
      | Rejected =>
          ArtistsPage.artists cur' = ArtistsPage.artists cur
          ∧ ArtistsPage.error cur' = ArtistsPage.error cur
          ∧ ArtistsPage.isLoading cur' = ArtistsPage.isLoading cur
          ∧ ArtistsPage.selectedArtist cur' = ArtistsPage.selectedArtist cur
      end.
Proof.
  simpl. unfold ArtistScreen.submit_page, ArtistScreen.submit,
    ArtistForm.handleSubmit, ArtistsPage.handleSubmit_settles.
  destruct (opt_truthy (ArtistForm.nameError fst)); simpl; [done|].
  unfold ArtistsPage.handleSubmit.
  destruct (ArtistsPage.editingArtist pst), osave as [[]|]; simpl;
    rewrite ?app_nil_r; simpl; repeat split;
    try (rewrite filter_app, loadArtists_fetches_once);
    try done; by destruct ofetch.
Qed.

(** X20.  Editing without changes is a round trip.  When the page has opened the
    form for an artist and the form is submitted as mounted, the page's save
    call is [updateArtist] under the artist's own id with exactly the
    artist's name, description and aliases; whatever the outcomes of the
    save and of the refetch, it is the only API call besides the refetch
    that follows a resolved save. *)
Theorem edit_without_change_saves_same (pst : ArtistsPage.PageState)
    (artist : Artist) (osave : Outcome unit)
    (ofetch : Outcome (list Artist)) :
  ArtistsPage.editingArtist pst = Some artist →
  head (ArtistScreen.submit_page pst (ArtistForm.mount (Some artist))
          osave ofetch)
  = Some (ArtistsPage.UpdateArtist (artist_id artist)
            {| form_name := artist_name artist;
               form_description := artist_description artist;
               form_aliases := artist_aliases artist |})
  ∧ filter ArtistsPage.is_apiCall
      (ArtistScreen.submit_page pst (ArtistForm.mount (Some artist))
         osave ofetch)
    = ArtistsPage.UpdateArtist (artist_id artist)
        {| form_name := artist_name artist;
           form_description := artist_description artist;
           form_aliases := artist_aliases artist |}
      :: match osave with
         | Resolved _ => [ArtistsPage.FetchArtists]
         | Rejected => []
         end.
Proof.
  intros Hedit.
  unfold ArtistScreen.submit_page, ArtistScreen.submit,
    ArtistsPage.handleSubmit_settles. simpl.
  unfold ArtistsPage.handleSubmit. rewrite Hedit.
  destruct osave as [[]|]; [|done].
  by destruct ofetch.
Qed.

Lemma edit_without_change_saves_same_witness :
  head (ArtistScreen.submit_page
          (ArtistsPage.step viewing_page ArtistsPage.ClickModalEdit)
          (ArtistForm.mount (Some sample_artist)) (Resolved tt) (Resolved []))
  = Some (ArtistsPage.UpdateArtist 7
            {| form_name := js "IU"; form_description := js "singer";
               form_aliases :=
                 [{| alias_id := 1; alias_name := js "Lee Ji-eun" |}] |}).
Proof.
  exact (proj1 (edit_without_change_saves_same
                  (ArtistsPage.step viewing_page ArtistsPage.ClickModalEdit)
                  sample_artist (Resolved tt) (Resolved []) eq_refl)).
Defined.

(** * Where the code departs from the specification *)

Lemma untilAwait_subseteq (effs : list ArtistForm.Effect) :
  ArtistForm.untilAwait effs ⊆ effs.
Proof.
  induction effs as [|e effs IH]; simpl; [done|].
  destruct (ArtistForm.is_await e).
  - intros x Hx. apply list_elem_of_singleton in Hx as ->. by left.
  - intros x [->|Hx]%elem_of_cons; [by left | right; by apply IH].
Qed.

Lemma afterAwait_subseteq (effs : list ArtistForm.Effect) :
  ArtistForm.afterAwait effs ⊆ effs.
Proof.
  induction effs as [|e effs IH]; simpl; [done|].
  destruct (ArtistForm.is_await e).
  - intros x Hx. by right.
  - intros x Hx. right. by apply IH.
Qed.

(** C1.  The submit button is not disabled whenever a duplicate check is in
    flight.  With two overlapping name checks, once the first has settled
    the flag [isCheckingDuplicate] is [false] although the second check, of
    the name now in the form, has been sent and has not settled: the form
    is in a state it can reach, no name error is showing, the submit button
    is enabled and [handleSubmit] passes the name "ab" to [onSubmit].  When
    the second check settles it reports that very name as taken. *)
Theorem submit_enabled_while_check_in_flight :
  ArtistForm.reachable ArtistForm.anyProps overlap_first_settled
  ∧ filter ArtistForm.is_CheckArtistDuplicate
      (ArtistForm.untilAwait overlap_second_check)
    = [ArtistForm.CheckArtistDuplicate (js "ab") None]
  ∧ ArtistForm.afterAwait overlap_second_check
    = [ArtistForm.SetNameError
         (Some (duplicateMessage (duplicate_name (js "ab"))));
       ArtistForm.SetIsCheckingDuplicate false]
  ∧ ArtistForm.submitDisabled overlap_both_pending = true
  ∧ ArtistForm.isCheckingDuplicate overlap_first_settled = false
  ∧ ArtistForm.nameError overlap_first_settled = None
  ∧ ArtistForm.submitDisabled overlap_first_settled = false
  ∧ filter ArtistForm.is_OnSubmit
      (ArtistForm.handleSubmit overlap_first_settled (Resolved tt))
    = [ArtistForm.OnSubmit
         {| form_name := js "ab"; form_description := js "singer";
            form_aliases := [] |}]
  ∧ opt_truthy (ArtistForm.nameError overlap_second_settled) = true.
Proof.
  split; [|by vm_compute].
  assert (Ha : ArtistForm.reachable ArtistForm.anyProps overlap_typed_a)
    by apply (run_reachable ArtistForm.anyProps None I),
             (mount_reachable ArtistForm.anyProps None I).
  assert (H1 : ArtistForm.reachable ArtistForm.anyProps overlap_first_pending).
  { apply (apply_reachable ArtistForm.anyProps None I overlap_typed_a
             (ArtistForm.NameDebounce (Resolved not_duplicate)));
      [done | apply untilAwait_subseteq | done]. }
  assert (Hab : ArtistForm.reachable ArtistForm.anyProps overlap_typed_ab)
    by apply (step_reachable ArtistForm.anyProps None I), H1.
  assert (H2 : ArtistForm.reachable ArtistForm.anyProps overlap_both_pending).
  { apply (apply_reachable ArtistForm.anyProps None I overlap_typed_ab
             (ArtistForm.NameDebounce (Resolved (duplicate_name (js "ab")))));
      [done | apply untilAwait_subseteq | done]. }
  apply (apply_reachable ArtistForm.anyProps None I overlap_typed_a
           (ArtistForm.NameDebounce (Resolved not_duplicate)));
    [done | apply afterAwait_subseteq | done].
Qed.

(** C4.  A failed save closes the form.  With the form open in create mode
    and filled in, a submission whose [createArtist] call rejects makes the
    page log the error and resolve; the form, seeing its [onSubmit]
    resolved, calls [onCancel], which is the page's [handleCloseForm]: the
    page closes the form, without a refetch, although the save failed. *)
Theorem failed_save_closes_form (ofetch : Outcome (list Artist)) :
  ArtistsPage.isFormOpen creating_page = true
  ∧ ArtistsPage.editingArtist creating_page = None
  ∧ filter ArtistForm.is_OnSubmit
      (ArtistScreen.submit filled_form Rejected ofetch)
    = [ArtistForm.OnSubmit
         {| form_name := js "BTS"; form_description := js "group";
            form_aliases := [] |}]
  ∧ existsb ArtistForm.is_OnCancel
      (ArtistScreen.submit filled_form Rejected ofetch) = true
  ∧ ArtistScreen.submit_page creating_page filled_form Rejected ofetch
    = [ArtistsPage.CreateArtist
         {| form_name := js "BTS"; form_description := js "group";
            form_aliases := [] |};
       ArtistsPage.ConsoleError (Some (js "Error saving artist:"));
       ArtistsPage.SetIsFormOpen false;
       ArtistsPage.SetEditingArtist None]
  ∧ ArtistsPage.isFormOpen
      (ArtistsPage.apply
         (ArtistScreen.submit_page creating_page filled_form Rejected ofetch)
         creating_page) = false.
Proof. by vm_compute. Qed.
